(** * The react-map-gl / Amplify / HERE routing sample

    A shallow embedding of the two React components of the sample that
    carry logic of their own:

    - [components/routing/Inputs.js]: [formatAddress], the debounced
      [RoutingMenuInput] effect and [searchByText];
    - [App.js]: the application state, [resetView], the three effects
      (route zoom, point zoom, route calculation), the Hub action routers
      [handleRouting], [handleMarkers], [handleViewport] and the map click
      handler [handleMapClick].

    React state cells are fields of a record and every [setX] call is a
    record update.  A handler is a function from the state of the render it
    closes over to the state after its setter calls.  The answer of a remote
    call (`await`) is an argument of the handler: [Resolved v] or [Rejected].
    Everything the components import but do not define ([defaultState], the
    enums of [AppContext], [fitBounds] of the map library) is a [Variable]
    of the section that uses it. *)

From stdpp Require Import base option list strings gmap.
From Stdlib Require Import QArith Ascii.
Close Scope Q_scope.
Open Scope string_scope.
Open Scope list_scope.
Open Scope nat_scope.

(** ** JavaScript values used by the components *)

Module Js.

(** A JavaScript number.  The components only carry coordinates around and
    compare one width with a constant, so rationals are enough. *)
Definition number : Type := Q.

(** A position of the Location API: the array [[longitude, latitude]]. *)
Definition LngLat : Type := (number * number)%type.

(** The outcome of an awaited promise. *)
Inductive Outcome (A : Type) : Type :=
| Resolved (value : A)
| Rejected.
Arguments Resolved {A} value.
Arguments Rejected {A}.

(** *** Strings

    A string is a sequence of code units; [string] of the Standard Library
    holds the code units below 256, which is where every white space
    character of ECMAScript below 256 lives: TAB, LF, VT, FF, CR, SP and
    NBSP (U+00A0). *)

Definition isWhiteSpace (c : ascii) : bool :=
  match nat_of_ascii c with
  | 9 | 10 | 11 | 12 | 13 | 32 | 160 => true
  | _ => false
  end.

Fixpoint trimStart (s : string) : string :=
  match s with
  | EmptyString => EmptyString
  | String c rest => if isWhiteSpace c then trimStart rest else s
  end.

Fixpoint trimEnd (s : string) : string :=
  match s with
  | EmptyString => EmptyString
  | String c rest =>
      match trimEnd rest with
      | EmptyString => if isWhiteSpace c then EmptyString else String c EmptyString
      | kept => String c kept
      end
  end.

(** [String.prototype.trim]. *)
Definition trim (s : string) : string := trimEnd (trimStart s).

(** [Array.prototype.join] on an array of strings. *)
Definition join (sep : string) (parts : list string) : string :=
  String.concat sep parts.

(** Truthiness of a value that is [undefined] or a string: only a
    non-empty string is truthy. *)
Definition truthy (v : option string) : bool :=
  match v with
  | Some (String _ _) => true
  | Some EmptyString | None => false
  end.

(** *** Arrays

    An array slot is a hole (an index below [length] that was never
    written), or holds a value.  [a[i]] reads [undefined] from a hole and
    past the end; [every] and [map] skip holes; the spread [[...a]] reads
    every index and so turns holes into [undefined]. *)
Inductive Slot (A : Type) : Type :=
| Hole
| Undefined
| Obj (o : A).
Arguments Hole {A}.
Arguments Undefined {A}.
Arguments Obj {A} o.

(** What [a[i]] evaluates to: [None] is [undefined]. *)
Definition get {A} (a : list (Slot A)) (i : nat) : option A :=
  match a !! i with
  | Some (Obj o) => Some o
  | Some Hole | Some Undefined | None => None
  end.

(** A value as it sits in an array slot after being written there. *)
Definition stored {A} (v : option A) : Slot A :=
  match v with
  | Some o => Obj o
  | None => Undefined
  end.

(** [[...a]]. *)
Definition spread {A} (a : list (Slot A)) : list (Slot A) :=
  (λ s, match s with Hole => Undefined | _ => s end) <$> a.

(** [a[i] = v]: in range the slot is overwritten; out of range the array is
    extended, the indices in between becoming holes. *)
Definition set {A} (i : nat) (v : Slot A) (a : list (Slot A)) : list (Slot A) :=
  if decide (i < List.length a) then <[i := v]> a
  else a ++ replicate (i - List.length a) Hole ++ [v].

(** [a.unshift(v)]. *)
Definition unshift {A} (v : Slot A) (a : list (Slot A)) : list (Slot A) := v :: a.

(** [a.every(p)], where [p] sees [undefined] as [None]. *)
Definition every {A} (p : option A → bool) (a : list (Slot A)) : bool :=
  forallb (λ s, match s with
                | Hole => true
                | Undefined => p None
                | Obj o => p (Some o)
                end) a.

End Js.

Import Js.

(** ** The marker object *)

(** [geometry] of a place: [{ point: [lng, lat] }]. *)
Record Geometry : Type := mkGeometry {
  point : LngLat;
}.

(** A place of Amplify Geo, and a marker: the place with the key [source]
    added by [handleMarkers].  Every key is optional; [None] is the key
    being absent, which reads as [undefined]. *)
Record Place : Type := mkPlace {
  geometry : option Geometry;
  addressNumber : option string;
  country : option string;
  label : option string;
  municipality : option string;
  neighborhood : option string;
  postalCode : option string;
  region : option string;
  street : option string;
  subRegion : option string;
  source : option string;
}.

(** The literal [{}]. *)
Definition emptyObject : Place :=
  {| geometry := None; addressNumber := None; country := None; label := None;
     municipality := None; neighborhood := None; postalCode := None;
     region := None; street := None; subRegion := None; source := None |}.

Definition count_key {A} (v : option A) : nat :=
  match v with Some _ => 1 | None => 0 end.

(** [Object.keys(p).length]. *)
Definition keys_length (p : Place) : nat :=
  count_key (geometry p) + count_key (addressNumber p) + count_key (country p)
  + count_key (label p) + count_key (municipality p) + count_key (neighborhood p)
  + count_key (postalCode p) + count_key (region p) + count_key (street p)
  + count_key (subRegion p) + count_key (source p).

(** [{ ...marker, source: src }], where [marker] may be [undefined]
    (spreading [undefined] copies nothing). *)
Definition with_source (marker : option Place) (src : string) : Place :=
  let m := default emptyObject marker in
  {| geometry := geometry m; addressNumber := addressNumber m;
     country := country m; label := label m; municipality := municipality m;
     neighborhood := neighborhood m; postalCode := postalCode m;
     region := region m; street := street m; subRegion := subRegion m;
     source := Some src |}.

(** ** components/routing/Inputs.js *)

Module Inputs.

(** [address.push(field)] under [if (field !== undefined)]. *)
Definition push_defined (field : option string) (address : list string) : list string :=
  match field with
  | Some v => address ++ [v]
  | None => address
  end.

(** [formatAddress], lines 13-31.  [country] is destructured and not used. *)
Definition formatAddress (a : Place) : string :=
  if truthy (label a) then default "" (label a)
  else
    let address := [] in
    let address := push_defined (street a) address in
    let address := push_defined (addressNumber a) address in
    let address := push_defined (postalCode a) address in
    let address := push_defined (municipality a) address in
    join ", " address.

(** The second argument of [Geo.searchByText]. *)
Record SearchOptions : Type := mkSearchOptions {
  biasPosition : LngLat;
  maxResults : nat;
}.

(** An entry of the [suggestions] state: a place found, or the text shown
    when nothing was found. *)
Inductive Suggestion : Type :=
| Found (p : Place)
| Message (text : string).

(** The state held by the [Inputs] component.  [hasSuggestions] belongs to
    the parent and is reached through the prop [setHasSuggestions]. *)
Record State : Type := mkState {
  suggestions : list Suggestion;
  focusedInputIdx : Z;
  isDirtyRef : bool;
  hasSuggestions : bool;
}.

Definition setSuggestions (v : list Suggestion) (st : State) : State :=
  {| suggestions := v; focusedInputIdx := focusedInputIdx st;
     isDirtyRef := isDirtyRef st; hasSuggestions := hasSuggestions st |}.

Definition setHasSuggestions (v : bool) (st : State) : State :=
  {| suggestions := suggestions st; focusedInputIdx := focusedInputIdx st;
     isDirtyRef := isDirtyRef st; hasSuggestions := v |}.

Definition setFocusedInputIdx (v : Z) (st : State) : State :=
  {| suggestions := suggestions st; focusedInputIdx := v;
     isDirtyRef := isDirtyRef st; hasSuggestions := hasSuggestions st |}.

Definition setDirty (st : State) : State :=
  {| suggestions := suggestions st; focusedInputIdx := focusedInputIdx st;
     isDirtyRef := true; hasSuggestions := hasSuggestions st |}.

(** The state of the first render: [useState([])], [useState(-1)],
    [useRef(false)]. *)
Definition initial : State :=
  {| suggestions := []; focusedInputIdx := (-1)%Z; isDirtyRef := false;
     hasSuggestions := false |}.

Definition noResult : string := "No result found for this address.".

(** The remote call [searchByText] issues (lines 91-104): none when the
    value trims to the empty string. *)
Definition searchByText_call (value : string) (bias : LngLat)
  : option (string * SearchOptions) :=
  if decide (trim value = "") then None
  else Some (value, {| biasPosition := bias; maxResults := 5 |}).

(** [searchByText], lines 91-115; [answer] is what the awaited
    [Geo.searchByText] settles to. *)
Definition searchByText (value : string) (bias : LngLat)
    (answer : Outcome (list Place)) (st : State) : State :=
  match searchByText_call value bias with
  | None => st
  | Some _ =>
      match answer with
      | Resolved res =>
          let st :=
            if decide (0 < List.length res) then setSuggestions (Found <$> res) st
            else setSuggestions [Message noResult] st in
          setHasSuggestions true st
      | Rejected => st   (* console.error(error) *)
      end
  end.

(** [handleValueChange], lines 118-124. *)
Definition handleValueChange (value : string) (bias : LngLat) (idx : nat)
    (answer : Outcome (list Place)) (st : State) : State :=
  let st := searchByText value bias answer st in
  let st := setFocusedInputIdx (Z.of_nat idx) st in
  if isDirtyRef st then st else setDirty st.

(** The effect of [RoutingMenuInput], lines 45-60: the arguments it calls
    [handleValueChangeRef.current] with, if it calls it.  [handler] tells
    whether the ref holds a function. *)
Definition RoutingMenuInput_effect (marker : Place) (debouncedValue : string)
    (viewportCenter : LngLat) (idx : nat) (handler : bool)
  : option (string * LngLat * nat) :=
  let defaultValue := formatAddress marker in
  if bool_decide (debouncedValue ≠ defaultValue) && handler
  then Some (trim debouncedValue, viewportCenter, idx)
  else None.

(** The remote search one run of the input's effect leads to, through
    [handleValueChange] and [searchByText]. *)
Definition RoutingMenuInput_search (marker : Place) (debouncedValue : string)
    (viewportCenter : LngLat) (idx : nat) (handler : bool)
  : option (string * SearchOptions) :=
  match RoutingMenuInput_effect marker debouncedValue viewportCenter idx handler with
  | Some (value, bias, _) => searchByText_call value bias
  | None => None
  end.

End Inputs.

(** ** AppContext.js

    The module is imported by both components and is not part of the
    sources at hand; what [App] reads from it is declared here and taken as
    a parameter there. *)

Module AppContext.

(** A [Date], as its time value. *)
Definition Date : Type := Z.

(** The values found in the option objects [carOptions] and
    [truckOptions]. *)
#[warnings="-register-all"]
Inductive jsval : Type :=
| JUndefined
| JBool (b : bool)
| JNum (n : number)
| JStr (s : string)
| JObj (fields : gmap string jsval).

(** An entry of [UnitsEnum]. *)
Record UnitsEntry : Type := mkUnitsEntry {
  distance : string;
  weight : string;
  dimensions : string;
}.

(** [defaultState].  Its [route] is an object that the application only
    ever compares by identity ([route !== defaultState.route]); the state
    cell [App.route] holds [None] for it. *)
Record DefaultState : Type := mkDefaultState {
  markers : list (Slot Place);
  isRouting : bool;
  routingMode : string;
  truckOptions : gmap string jsval;
  carOptions : gmap string jsval;
  departureTime : Date;
  distanceUnit : string;
  units : string;
}.

End AppContext.

(** ** App.js *)

Module App.

Import AppContext (Date, jsval, JUndefined, JBool, JNum, JStr, JObj).

Inductive Duration : Type :=
| auto
| millis (n : number).

(** The props of the map that make up the [viewport] state. *)
Record Viewport : Type := mkViewport {
  latitude : number;
  longitude : number;
  zoom : number;
  width : option number;
  height : option number;
  transitionInterpolator : option number;  (* new FlyToInterpolator({ speed }) *)
  transitionDuration : option Duration;
}.

Record Padding : Type := mkPadding {
  top : number;
  bottom : number;
  left : number;
  right : number;
}.

(** A bounding box: four numbers, read as [routeBBox[0]] to [routeBBox[3]]. *)
Definition BBox : Type := (number * number * number * number)%type.

Record RouteSummary : Type := mkRouteSummary {
  RouteBBox : BBox;
  Distance : number;
  DurationSeconds : number;
}.

(** The response of [calculateRoute]; [metadata] is the key [$metadata]. *)
Record RouteResult : Type := mkRouteResult {
  Legs : list (list LngLat);
  Summary : RouteSummary;
  metadata : option string;
}.

(** [delete res.$metadata]. *)
Definition delete_metadata (res : RouteResult) : RouteResult :=
  {| Legs := Legs res; Summary := Summary res; metadata := None |}.

(** The state cells of [App] (lines 27-42) and its two boolean refs (lines
    45-46).  [route = None] is [route === defaultState.route]. *)
Record State : Type := mkState {
  viewport : Viewport;
  markers : list (Slot Place);
  isRouting : bool;
  route : option RouteResult;
  routingMode : string;
  truckOptions : gmap string jsval;
  carOptions : gmap string jsval;
  departureTime : Date;
  distanceUnit : string;
  units : string;
  isRouteZoomedRef : bool;
  isPointZoomed : bool;
}.

Definition setViewport (v : Viewport) (st : State) : State :=
  {| viewport := v; markers := markers st; isRouting := isRouting st;
     route := route st; routingMode := routingMode st;
     truckOptions := truckOptions st; carOptions := carOptions st;
     departureTime := departureTime st; distanceUnit := distanceUnit st;
     units := units st; isRouteZoomedRef := isRouteZoomedRef st;
     isPointZoomed := isPointZoomed st |}.

Definition setMarkers (v : list (Slot Place)) (st : State) : State :=
  {| viewport := viewport st; markers := v; isRouting := isRouting st;
     route := route st; routingMode := routingMode st;
     truckOptions := truckOptions st; carOptions := carOptions st;
     departureTime := departureTime st; distanceUnit := distanceUnit st;
     units := units st; isRouteZoomedRef := isRouteZoomedRef st;
     isPointZoomed := isPointZoomed st |}.

Definition setRouting (v : bool) (st : State) : State :=
  {| viewport := viewport st; markers := markers st; isRouting := v;
     route := route st; routingMode := routingMode st;
     truckOptions := truckOptions st; carOptions := carOptions st;
     departureTime := departureTime st; distanceUnit := distanceUnit st;
     units := units st; isRouteZoomedRef := isRouteZoomedRef st;
     isPointZoomed := isPointZoomed st |}.

Definition setRoute (v : option RouteResult) (st : State) : State :=
  {| viewport := viewport st; markers := markers st;
     isRouting := isRouting st; route := v; routingMode := routingMode st;
     truckOptions := truckOptions st; carOptions := carOptions st;
     departureTime := departureTime st; distanceUnit := distanceUnit st;
     units := units st; isRouteZoomedRef := isRouteZoomedRef st;
     isPointZoomed := isPointZoomed st |}.

Definition setRoutingMode (v : string) (st : State) : State :=
  {| viewport := viewport st; markers := markers st;
     isRouting := isRouting st; route := route st; routingMode := v;
     truckOptions := truckOptions st; carOptions := carOptions st;
     departureTime := departureTime st; distanceUnit := distanceUnit st;
     units := units st; isRouteZoomedRef := isRouteZoomedRef st;
     isPointZoomed := isPointZoomed st |}.

Definition setTruckOptions (v : gmap string jsval) (st : State) : State :=
  {| viewport := viewport st; markers := markers st;
     isRouting := isRouting st; route := route st;
     routingMode := routingMode st; truckOptions := v;
     carOptions := carOptions st; departureTime := departureTime st;
     distanceUnit := distanceUnit st; units := units st;
     isRouteZoomedRef := isRouteZoomedRef st;
     isPointZoomed := isPointZoomed st |}.

Definition setCarOptions (v : gmap string jsval) (st : State) : State :=
  {| viewport := viewport st; markers := markers st;
     isRouting := isRouting st; route := route st;
     routingMode := routingMode st; truckOptions := truckOptions st;
     carOptions := v; departureTime := departureTime st;
     distanceUnit := distanceUnit st; units := units st;
     isRouteZoomedRef := isRouteZoomedRef st;
     isPointZoomed := isPointZoomed st |}.

Definition setDepartureTime (v : Date) (st : State) : State :=
  {| viewport := viewport st; markers := markers st;
     isRouting := isRouting st; route := route st;
     routingMode := routingMode st; truckOptions := truckOptions st;
     carOptions := carOptions st; departureTime := v;
     distanceUnit := distanceUnit st; units := units st;
     isRouteZoomedRef := isRouteZoomedRef st;
     isPointZoomed := isPointZoomed st |}.

Definition setDistanceUnit (v : string) (st : State) : State :=
  {| viewport := viewport st; markers := markers st;
     isRouting := isRouting st; route := route st;
     routingMode := routingMode st; truckOptions := truckOptions st;
     carOptions := carOptions st; departureTime := departureTime st;
     distanceUnit := v; units := units st;
     isRouteZoomedRef := isRouteZoomedRef st;
     isPointZoomed := isPointZoomed st |}.

Definition setUnits (v : string) (st : State) : State :=
  {| viewport := viewport st; markers := markers st;
     isRouting := isRouting st; route := route st;
     routingMode := routingMode st; truckOptions := truckOptions st;
     carOptions := carOptions st; departureTime := departureTime st;
     distanceUnit := distanceUnit st; units := v;
     isRouteZoomedRef := isRouteZoomedRef st;
     isPointZoomed := isPointZoomed st |}.

Definition write_isRouteZoomedRef (v : bool) (st : State) : State :=
  {| viewport := viewport st; markers := markers st;
     isRouting := isRouting st; route := route st;
     routingMode := routingMode st; truckOptions := truckOptions st;
     carOptions := carOptions st; departureTime := departureTime st;
     distanceUnit := distanceUnit st; units := units st;
     isRouteZoomedRef := v; isPointZoomed := isPointZoomed st |}.

Definition write_isPointZoomed (v : bool) (st : State) : State :=
  {| viewport := viewport st; markers := markers st;
     isRouting := isRouting st; route := route st;
     routingMode := routingMode st; truckOptions := truckOptions st;
     carOptions := carOptions st; departureTime := departureTime st;
     distanceUnit := distanceUnit st; units := units st;
     isRouteZoomedRef := isRouteZoomedRef st; isPointZoomed := v |}.

(** *** Messages of the Hub

    A capsule is [{ payload: { event, data }, source }]; the payload is a
    tagged union on [event].  [Hub.dispatch(channel, payload, source)] has
    the empty string as the default of [source]. *)

Inductive RoutingEvent : Type :=
| startRouting
| endRouting
| changeRoutingMode (data : string)
| changeAvoidances (key : string) (value : jsval)
| changeTruckOptions (data : jsval)
| changeDepartureTime (data : Date)
| changeDistanceUnit (data : string)
| changeUnits (data : string)
| otherRoutingEvent.

Record RoutingCapsule : Type := mkRoutingCapsule {
  routing_event : RoutingEvent;
  routing_source : string;
}.

(** [payload.data] of a [setMarker] event: [idx] is an array index;
    [handleMapClick] sends [lngLat] and no [marker], the suggestion list
    sends the chosen place as [marker] and no [lngLat]. *)
Record SetMarkerData : Type := mkSetMarkerData {
  idx : nat;
  lngLat : option LngLat;
  marker : option Place;
  geocode : bool;
  force : bool;
}.

Inductive MarkersEvent : Type :=
| closeToast
| cleanUp
| swapMarkers
| setMarker (data : option SetMarkerData)
| otherMarkersEvent.

Record MarkersCapsule : Type := mkMarkersCapsule {
  markers_event : MarkersEvent;
  markers_source : string;
}.

Inductive ViewportEvent : Type :=
| update (data : Viewport)
| otherViewportEvent.

(** The arguments of [calculateRoute], lines 130-137. *)
Record CalculateRouteArgs : Type := mkCalculateRouteArgs {
  arg_routingMode : string;
  arg_positions : list (Slot LngLat);
  arg_carOptions : gmap string jsval;
  arg_truckOptions : gmap string jsval;
  arg_departureTime : Date;
  arg_distanceUnit : string;
}.

(** What one run of the point zoom effect does. *)
Inductive PointZoom : Type :=
| NoPointZoom
| PointZoomed (p : LngLat)
| PointZoomTypeError.

Section Component.

(** What [App] imports: [defaultState], [RoutingModesEnum.CAR],
    [RoutingModesEnum.TRUCK], the entry [UnitsEnum[data.toUpperCase()]]
    ([None] when [UnitsEnum] has no such key), and [fitBounds] of
    [WebMercatorViewport], which answers longitude, latitude and zoom, or
    throws ([None]): the library asserts that what the padding leaves of
    the viewport's width and height is positive, which fails for a viewport
    without a size, as the one of the first render. *)
Variable defaultState : AppContext.DefaultState.
Variable CAR TRUCK : string.
Variable UnitsEnum : string → option AppContext.UnitsEntry.
Variable fitBounds :
  Viewport → LngLat * LngLat → Padding → option (number * number * number).

(** The state of the first render, lines 27-46. *)
Definition initial : State :=
  {| viewport :=
       {| latitude := (3612185075270952 # 100000000000000)%Q;
          longitude := (-11517130273723231 # 100000000000000)%Q;
          zoom := (13 # 1)%Q;
          width := None; height := None;
          transitionInterpolator := None; transitionDuration := None |};
     markers := AppContext.markers defaultState;
     isRouting := AppContext.isRouting defaultState;
     route := None;
     routingMode := AppContext.routingMode defaultState;
     truckOptions := AppContext.truckOptions defaultState;
     carOptions := AppContext.carOptions defaultState;
     departureTime := AppContext.departureTime defaultState;
     distanceUnit := AppContext.distanceUnit defaultState;
     units := AppContext.units defaultState;
     isRouteZoomedRef := false;
     isPointZoomed := false |}.

(** [viewport.width > 768 ? 450 : 50]; an [undefined] width compares
    false. *)
Definition right_padding (v : Viewport) : number :=
  match width v with
  | Some w => if Qle_bool w (768 # 1) then (50 # 1)%Q else (450 # 1)%Q
  | None => (50 # 1)%Q
  end.

(** The viewport with the fly-to transition of lines 74-81 and 87-94. *)
Definition flyTo (v : Viewport) (lng lat z : number) : Viewport :=
  {| latitude := lat; longitude := lng; zoom := z;
     width := width v; height := height v;
     transitionInterpolator := Some (8 # 10)%Q;
     transitionDuration := Some auto |}.

(** [zoomToRoute], lines 54-82: [None] when [fitBounds] throws, which is
    before [setViewport] is reached. *)
Definition zoomToRoute (routeBBox : BBox) (v : Viewport) (st : State)
  : option State :=
  let '(b0, b1, b2, b3) := routeBBox in
  '(lng, lat, z) ←
    fitBounds v ((b0, b1), (b2, b3))
      {| top := (50 # 1)%Q; bottom := (50 # 1)%Q; left := (50 # 1)%Q;
         right := right_padding v |};
  Some (setViewport (flyTo v lng lat z) st).

(** [zoomToPoint], lines 84-95. *)
Definition zoomToPoint (p : LngLat) (v : Viewport) (st : State) : State :=
  let '(lng, lat) := p in
  setViewport (flyTo v lng lat (15 # 1)%Q) st.

(** [resetView], lines 98-108. *)
Definition resetView (st : State) : State :=
  let st := setRouting (AppContext.isRouting defaultState) st in
  let st := setMarkers (AppContext.markers defaultState) st in
  let st := setRoute None st in
  let st := setRoutingMode (AppContext.routingMode defaultState) st in
  let st := setTruckOptions (AppContext.truckOptions defaultState) st in
  let st := setCarOptions (AppContext.carOptions defaultState) st in
  let st := setDepartureTime (AppContext.departureTime defaultState) st in
  let st := write_isRouteZoomedRef false st in
  write_isPointZoomed false st.

(** The route zoom effect, lines 111-116, run with the debounced viewport
    of its render.  The second component is the bounding box flown to, when
    the effect zooms.  When [zoomToRoute] throws, the ref is already set and
    the viewport is not: nothing is flown to. *)
Definition routeZoomEffect (debouncedViewport : Viewport) (st : State)
  : State * option BBox :=
  match route st with
  | Some r =>
      if negb (isRouteZoomedRef st) then
        let st := write_isRouteZoomedRef true st in
        match zoomToRoute (RouteBBox (Summary r)) debouncedViewport st with
        | Some st => (st, Some (RouteBBox (Summary r)))
        | None => (st, None)
        end
      else (st, None)
  | None => (st, None)
  end.

(** The point zoom effect, lines 118-123.  Reading
    [markers[0].geometry.point] throws a [TypeError] when the slot reads
    [undefined] or the marker has no [geometry]; the ref is already set
    then. *)
Definition pointZoomEffect (debouncedViewport : Viewport) (st : State)
  : State * PointZoom :=
  if bool_decide (List.length (markers st) = 1) && negb (isPointZoomed st) then
    let st := write_isPointZoomed true st in
    match get (markers st) 0 ≫= geometry with
    | Some g => (zoomToPoint (point g) debouncedViewport st, PointZoomed (point g))
    | None => (st, PointZoomTypeError)
    end
  else (st, NoPointZoom).

(** The test of lines 153-156 on one marker. *)
Definition valid_marker (m : option Place) : bool :=
  match m with
  | Some o => bool_decide (0 < keys_length o)
  | None => false
  end.

(** The guard of lines 150-158. *)
Definition route_guard (ms : list (Slot Place)) : bool :=
  bool_decide (2 ≤ List.length ms)%nat && every valid_marker ms.

(** [markers.map((marker) => marker.geometry.point)], line 132: [None]
    when the callback throws a [TypeError].  [map] skips holes and leaves
    them in its result. *)
Fixpoint marker_points (ms : list (Slot Place)) : option (list (Slot LngLat)) :=
  match ms with
  | [] => Some []
  | s :: rest =>
      p ← match s with
          | Hole => Some Hole
          | Undefined => None
          | Obj m => (λ g, Obj (point g)) <$> geometry m
          end;
      ps ← marker_points rest;
      Some (p :: ps)
  end.

(** The call of [calculateRoute] one run of the route effect makes, lines
    126-161: none when the guard fails, and none when building the
    arguments throws (the [try] block catches and logs it). *)
Definition routeEffect_call (st : State) : option CalculateRouteArgs :=
  if route_guard (markers st) then
    positions ← marker_points (markers st);
    Some {| arg_routingMode := routingMode st;
            arg_positions := positions;
            arg_carOptions := carOptions st;
            arg_truckOptions := truckOptions st;
            arg_departureTime := departureTime st;
            arg_distanceUnit := distanceUnit st |}
  else None.

(** The rest of [route] after the [await], lines 138-146. *)
Definition route_settled (answer : Outcome RouteResult) (st : State) : State :=
  match answer with
  | Resolved res =>
      let st := write_isRouteZoomedRef false st in
      setRoute (Some (delete_metadata res)) st
  | Rejected => st   (* console.log(error) *)
  end.

(** One run of the route effect whose call settles to [answer]. *)
Definition routeEffect (answer : Outcome RouteResult) (st : State) : State :=
  match routeEffect_call st with
  | Some _ => route_settled answer st
  | None => st
  end.

(** [newState[key1][key2] = v]: [None] is the [TypeError] of writing a
    property of something that is not an object. *)
Definition assign_nested (key1 key2 : string) (v : jsval) (o : gmap string jsval)
  : option (gmap string jsval) :=
  match o !! key1 with
  | Some (JObj inner) => Some (<[key1 := JObj (<[key2 := v]> inner)]> o)
  | _ => None
  end.

(** [handleRouting], lines 173-241.  In [changeUnits] the shallow copy
    [{ ...truckOptions }] shares its nested objects with the state, so a
    write that succeeds before a later one throws is seen by the state
    although [setTruckOptions] is not reached.  Option objects are values
    here: that the same write also reaches [defaultState.truckOptions]
    while the state still holds its nested objects is not tracked, and
    [defaultState] stands for what that object holds when a handler reads
    it. *)
Definition handleRouting (message : option RoutingCapsule) (st : State) : State :=
  match message with
  | None => st
  | Some message =>
      match routing_event message with
      | startRouting => setRouting true st
      | endRouting => resetView st
      | changeRoutingMode data =>
          if bool_decide (data ≠ routingMode st) then
            let st := setRoutingMode data st in
            let st := setTruckOptions (AppContext.truckOptions defaultState) st in
            setCarOptions (AppContext.carOptions defaultState) st
          else st
      | changeAvoidances key value =>
          if bool_decide (routing_source message = CAR) then
            setCarOptions (<[key := value]> (carOptions st)) st
          else if bool_decide (routing_source message = TRUCK) then
            setTruckOptions (<[key := value]> (truckOptions st)) st
          else st
      | changeTruckOptions data =>
          setTruckOptions (<[routing_source message := data]> (truckOptions st)) st
      | changeDepartureTime data =>
          if bool_decide (data ≠ departureTime st) then setDepartureTime data st
          else st
      | changeDistanceUnit data => setDistanceUnit data st
      | changeUnits data =>
          if bool_decide (data ≠ units st) then
            match UnitsEnum data with
            | None => st
            | Some entry =>
                let st := setDistanceUnit (AppContext.distance entry) st in
                match assign_nested "Weight" "Unit"
                        (JStr (AppContext.weight entry)) (truckOptions st) with
                | None => st
                | Some newState =>
                    let st := setTruckOptions newState st in
                    match assign_nested "Dimensions" "Unit"
                            (JStr (AppContext.dimensions entry)) newState with
                    | None => st
                    | Some newState =>
                        let st := setTruckOptions newState st in
                        setUnits data st
                    end
                end
            end
          else st
      | otherRoutingEvent => st
      end
  end.

(** The array [swapMarkers] builds, lines 252-261. *)
Definition swapped (ms : list (Slot Place)) : list (Slot Place) :=
  let newMarkers := [] in
  if bool_decide (List.length ms = 1) then
    let newMarkers := set 0 (stored (get ms 0)) newMarkers in
    set 1 (Obj emptyObject) newMarkers
  else if bool_decide (List.length ms = 2) then
    let newMarkers := set 0 (stored (get ms 1)) newMarkers in
    set 1 (stored (get ms 0)) newMarkers
  else newMarkers.

(** [handleMarkers], lines 244-292.  [geo] is what the awaited
    [Geo.searchByCoordinates] settles to; it is read only on the [geocode]
    path.  A [setMarker] without [data] throws at the destructuring of line
    264. *)
Definition handleMarkers (data : MarkersCapsule) (geo : Outcome Place)
    (st : State) : State :=
  match markers_event data with
  | closeToast | cleanUp => resetView st
  | swapMarkers => setMarkers (swapped (markers st)) st
  | setMarker None => st
  | setMarker (Some d) =>
      let marker :=
        if geocode d then
          match geo with
          | Resolved p => Some p
          | Rejected => None   (* console.log(error) *)
          end
        else marker d in
      let newMarkers := spread (markers st) in
      if bool_decide (is_Some (get newMarkers (idx d))) && negb (force d) then
        let newMarkers := spread newMarkers in
        let newMarkers :=
          unshift (Obj (with_source marker (markers_source data))) newMarkers in
        setMarkers newMarkers st
      else
        let newMarkers :=
          set (idx d) (Obj (with_source marker (markers_source data))) newMarkers in
        let st := if bool_decide (idx d = 0) then write_isPointZoomed false st else st in
        setMarkers newMarkers st
  | otherMarkersEvent => st
  end.

(** [handleViewport], lines 295-300. *)
Definition handleViewport (e : ViewportEvent) (st : State) : State :=
  match e with
  | update data => setViewport data st
  | otherViewportEvent => st
  end.

(** [handleMapClick], lines 317-345: the capsule it dispatches on the
    channel [Markers].  With more than two markers in routing mode [data]
    is left [undefined]. *)
Definition handleMapClick (e : LngLat) (st : State) : MarkersCapsule :=
  if bool_decide (0 < List.length (markers st)) && negb (isRouting st) then
    {| markers_event := cleanUp; markers_source := "" |}
  else
    let data :=
      if bool_decide (List.length (markers st) = 0)
         || bool_decide (List.length (markers st) = 2) then
        Some {| idx := 0; lngLat := Some e; marker := None;
                geocode := true; force := true |}
      else if bool_decide (List.length (markers st) = 1) then
        Some {| idx := 0; lngLat := Some e; marker := None;
                geocode := true; force := false |}
      else None in
    {| markers_event := setMarker data; markers_source := "map" |}.

(** [viewportCenter] of the context value, lines 352-355. *)
Definition viewportCenter (debouncedViewport : Viewport) : LngLat :=
  (longitude debouncedViewport, latitude debouncedViewport).

(** *** The component as a transition system

    What can happen to a mounted [App]: a capsule arrives on one of the
    three channels, the map is clicked or moved, one of the zoom effects
    runs (with whatever the debounced viewport is at that render), or a
    pending [calculateRoute] settles. *)
Inductive Event : Type :=
| HubRouting (message : option RoutingCapsule)
| HubMarkers (data : MarkersCapsule) (geo : Outcome Place)
| HubViewport (e : ViewportEvent)
| MapClick (e : LngLat) (geo : Outcome Place)
| ViewportChange (v : Viewport)
| RunRouteZoomEffect (debouncedViewport : Viewport)
| RunPointZoomEffect (debouncedViewport : Viewport)
| RouteSettled (answer : Outcome RouteResult).

(** The state after an event, and the route bounding boxes flown to. *)
Definition step (st : State) (ev : Event) : State * list BBox :=
  match ev with
  | HubRouting message => (handleRouting message st, [])
  | HubMarkers data geo => (handleMarkers data geo st, [])
  | HubViewport e => (handleViewport e st, [])
  | MapClick e geo => (handleMarkers (handleMapClick e st) geo st, [])
  | ViewportChange v => (setViewport v st, [])
  | RunRouteZoomEffect dv =>
      let '(st, flown) := routeZoomEffect dv st in (st, option_list flown)
  | RunPointZoomEffect dv => ((pointZoomEffect dv st).1, [])
  | RouteSettled answer => (route_settled answer st, [])
  end.

Fixpoint run (st : State) (evs : list Event) : State * list BBox :=
  match evs with
  | [] => (st, [])
  | ev :: rest =>
      let '(st, flown) := step st ev in
      let '(st, flown') := run st rest in
      (st, flown ++ flown')
  end.

(** A route result arrived: the event that settles a [calculateRoute]
    call with a response. *)
Definition is_route_result (ev : Event) : bool :=
  match ev with
  | RouteSettled (Resolved _) => true
  | _ => false
  end.

End Component.

End App.

(** ** Concrete values

    An instance of what [App] imports, and a few places and states, on
    which the definitions above are run. *)

Module Sample.

Import AppContext (jsval, JUndefined, JBool, JNum, JStr, JObj).
Import App.

Definition weightObject : jsval :=
  JObj (<["Total" := JNum (0 # 1)%Q]> (<["Unit" := JStr "Kilograms"]> ∅)).

Definition dimensionsObject : jsval :=
  JObj (<["Height" := JNum (0 # 1)%Q]> (<["Length" := JNum (0 # 1)%Q]>
       (<["Width" := JNum (0 # 1)%Q]> (<["Unit" := JStr "Meters"]> ∅)))).

Definition avoidances : gmap string jsval :=
  <["AvoidFerries" := JBool false]> (<["AvoidTolls" := JBool false]> ∅).

Definition defaultState : AppContext.DefaultState :=
  {| AppContext.markers := [];
     AppContext.isRouting := false;
     AppContext.routingMode := "Car";
     AppContext.truckOptions :=
       <["Weight" := weightObject]> (<["Dimensions" := dimensionsObject]> avoidances);
     AppContext.carOptions := avoidances;
     AppContext.departureTime := 0%Z;
     AppContext.distanceUnit := "Kilometers";
     AppContext.units := "metric" |}.

Definition UnitsEnum (data : string) : option AppContext.UnitsEntry :=
  if bool_decide (data = "metric") then
    Some {| AppContext.distance := "Kilometers"; AppContext.weight := "Kilograms";
            AppContext.dimensions := "Meters" |}
  else if bool_decide (data = "imperial") then
    Some {| AppContext.distance := "Miles"; AppContext.weight := "Pounds";
            AppContext.dimensions := "Feet" |}
  else None.

(** A [fitBounds] for the examples: it throws unless the viewport has a
    width and a height that exceed the padding, and answers the south-west
    corner at zoom 10 otherwise. *)
Definition fitBounds (v : Viewport) (box : LngLat * LngLat) (p : Padding)
  : option (number * number * number) :=
  match width v, height v with
  | Some w, Some h =>
      if Qle_bool w (left p + right p) || Qle_bool h (top p + bottom p) then None
      else Some (box.1.1, box.1.2, (10 # 1)%Q)
  | _, _ => None
  end.

Definition handleMarkers := App.handleMarkers defaultState.
Definition handleRouting := App.handleRouting defaultState "Car" "Truck" UnitsEnum.
Definition step := App.step defaultState "Car" "Truck" UnitsEnum fitBounds.
Definition run := App.run defaultState "Car" "Truck" UnitsEnum fitBounds.

(** The application as mounted. *)
Definition mounted : State := App.initial defaultState.

(** The viewport of the first render once the map reports its size. *)
Definition desktop : Viewport :=
  {| latitude := latitude (viewport mounted);
     longitude := longitude (viewport mounted);
     zoom := zoom (viewport mounted);
     width := Some (1280 # 1)%Q; height := Some (720 # 1)%Q;
     transitionInterpolator := None; transitionDuration := None |}.

(** The application in routing mode, before any marker is set. *)
Definition routing : State := setRouting true mounted.

Definition strip : LngLat := ((-1151713 # 10000)%Q, (361218 # 10000)%Q).

Definition bellagio : Place :=
  {| geometry := Some {| point := ((-1151767 # 10000)%Q, (361126 # 10000)%Q) |};
     addressNumber := Some "3600";
     country := Some "USA";
     label := Some "3600 S Las Vegas Blvd, Las Vegas, NV, 89109, USA";
     municipality := Some "Las Vegas";
     neighborhood := None;
     postalCode := Some "89109";
     region := Some "Nevada";
     street := Some "S Las Vegas Blvd";
     subRegion := Some "Clark County";
     source := None |}.

(** A place without a label. *)
Definition unlabelled : Place :=
  {| geometry := Some {| point := ((-1151398 # 10000)%Q, (361699 # 10000)%Q) |};
     addressNumber := Some "495";
     country := Some "USA";
     label := None;
     municipality := Some "Las Vegas";
     neighborhood := None;
     postalCode := Some "89101";
     region := None;
     street := Some "S Main St";
     subRegion := None;
     source := None |}.

(** A place whose label is the empty string. *)
Definition blankLabel : Place :=
  {| geometry := None; addressNumber := None; country := None;
     label := Some ""; municipality := None; neighborhood := None;
     postalCode := None; region := None; street := Some "S Main St";
     subRegion := None; source := None |}.

Definition bbox : BBox :=
  ((-1151767 # 10000)%Q, (361126 # 10000)%Q, (-1151398 # 10000)%Q, (361699 # 10000)%Q).

Definition response : RouteResult :=
  {| Legs := [[strip; (bbox.1.2, bbox.2)]];
     Summary := {| RouteBBox := bbox; Distance := (7 # 1)%Q;
                  DurationSeconds := (900 # 1)%Q |};
     metadata := Some "request-1" |}.

(** The default state is mounted, the map is clicked and the geocoder
    answers: one marker, routing mode off. *)
Definition oneMarker : State :=
  (run mounted [MapClick strip (Resolved bellagio); RunPointZoomEffect (viewport mounted)]).1.

(** The same click, the geocoder failing. *)
Definition lostMarker : State :=
  (step mounted (MapClick strip (Rejected))).1.

Definition startRoutingCapsule : RoutingCapsule :=
  {| routing_event := startRouting; routing_source := "" |}.

(** Routing mode with origin and destination set by two clicks. *)
Definition twoMarkers : State :=
  (run mounted
     [HubRouting (Some startRoutingCapsule);
      MapClick strip (Resolved unlabelled);
      RunPointZoomEffect (viewport mounted);
      MapClick strip (Resolved bellagio)]).1.

(** Routing mode, the second click met by a failing geocoder. *)
Definition halfLocated : State :=
  (run mounted
     [HubRouting (Some startRoutingCapsule);
      MapClick strip (Resolved bellagio);
      RunPointZoomEffect (viewport mounted);
      MapClick strip Rejected]).1.

(** Routing mode with one marker set by a click. *)
Definition routingOne : State :=
  (run mounted
     [HubRouting (Some startRoutingCapsule);
      MapClick strip (Resolved bellagio);
      RunPointZoomEffect (viewport mounted)]).1.

(** A suggestion chosen for the second input while no marker is set. *)
Definition secondInputCapsule : MarkersCapsule :=
  {| markers_event :=
       setMarker (Some {| idx := 1; lngLat := None; marker := Some bellagio;
                          geocode := false; force := true |});
     markers_source := "routingMenu" |}.

Definition sparse : State :=
  (step mounted (HubMarkers secondInputCapsule Rejected)).1.

Definition swapCapsule : MarkersCapsule :=
  {| markers_event := swapMarkers; markers_source := "" |}.

(** A route has arrived and has been zoomed to. *)
Definition zoomed : State :=
  (run twoMarkers
     [RouteSettled (Resolved response); RunRouteZoomEffect desktop]).1.

End Sample.

(** ** Notions used to state the properties *)

Module Spec.

Import App.

(** The fields an address is joined from, in the words of the
    specification: those of street, addressNumber, postalCode, municipality
    that are defined, in that order. *)
Definition defined_address_fields (a : Place) : list string :=
  omap id [street a; addressNumber a; postalCode a; municipality a].

(** A slot that holds a defined, non-empty object. *)
Definition defined_nonempty_object (s : Slot Place) : Prop :=
  ∃ m, s = Obj m ∧ 0 < keys_length m.

(** The condition of the routing panel in the words of the specification:
    the list contains at least two markers and every marker is a defined,
    non-empty object. *)
Definition at_least_two_valid_markers (ms : list (Slot Place)) : Prop :=
  2 ≤ List.length ms ∧ Forall defined_nonempty_object ms.

(** The markers on which [marker.geometry.point] is what the data model
    promises: no hole in the array, and a coordinate on every marker that
    is a non-empty object. *)
Definition located (s : Slot Place) : Prop :=
  s ≠ Hole ∧ ∀ m, s = Obj m → 0 < keys_length m → is_Some (geometry m).

(** The array has no hole. *)
Definition dense {A} (a : list (Slot A)) : Prop := Forall (λ s, s ≠ Hole) a.

(** The setMarker capsules that the dispatchers of the sample send in a
    state: [handleMapClick] always sets index 0 and forces when two markers
    are held; the suggestion list of [Inputs] (lines 129-155) sets the
    index of one of its at most two inputs and forces when two markers are
    held. *)
Definition sample_dispatch (st : State) (data : MarkersCapsule) : Prop :=
  ∀ d, markers_event data = setMarker (Some d) →
       idx d ≤ 1 ∧ (List.length (markers st) = 2 → force d = true).

(** 1 when a route is held that has not been zoomed to, else 0. *)
Definition awaiting_zoom (st : State) : nat :=
  match route st with
  | Some _ => if isRouteZoomedRef st then 0 else 1
  | None => 0
  end.

(** How many route results arrive in a sequence of events. *)
Definition route_results (evs : list Event) : nat :=
  List.length (List.filter is_route_result evs).

End Spec.

(** ** components/routing/Inputs.js, the rest of the component

    What [Inputs] and [RoutingMenuInput] do besides searching: the list of
    inputs they render, the two buttons, the rows of the suggestion list,
    the Escape key and the click on a suggestion. *)

Module RoutingInputs.

(** [inputs], lines 85 and 157-165: the markers of the context, with an
    empty object put in when there is no first marker outside routing mode,
    or put in front in routing mode with fewer than two markers. *)
Definition inputs (isRouting : bool) (markers : list (Slot Place)) : list (Slot Place) :=
  let inputs := spread markers in
  if negb (bool_decide (is_Some (get inputs 0))) && negb isRouting then
    set 0 (Obj emptyObject) inputs
  else if isRouting && bool_decide (List.length inputs < 2) then
    let newInputs := spread inputs in
    unshift (Obj emptyObject) newInputs
  else inputs.

(** The prop [marker] of one [RoutingMenuInput], line 176: [None] is
    [undefined]. *)
Definition input_marker (isDirty isRouting : bool) (marker : Slot Place) : option Place :=
  if isDirty || isRouting then
    match marker with
    | Obj m => Some m
    | Hole | Undefined => None
    end
  else Some emptyObject.

(** [defaultValue] of a [RoutingMenuInput], line 41: [formatAddress]
    destructures its argument, which throws a [TypeError] ([None]) on
    [undefined]. *)
Definition defaultValue (marker : option Place) : option string :=
  Inputs.formatAddress <$> marker.

(** The default values of all the inputs rendered, lines 171-185: [None]
    when one of them throws. *)
Definition defaultValues (isDirty isRouting : bool) (markers : list (Slot Place))
  : option (list string) :=
  mapM (λ marker, defaultValue (input_marker isDirty isRouting marker))
       (inputs isRouting markers).

(** The swap button is rendered, line 187. *)
Definition showSwap (isRouting : bool) (markers : list (Slot Place)) : bool :=
  bool_decide (List.length (inputs isRouting markers) = 2).

(** The test under which the Directions button is rendered, lines 205-209,
    evaluated left to right: [None] when [Object.keys(inputs[0])] throws. *)
Definition showDirections (isRouting : bool) (markers : list (Slot Place))
    (ist : Inputs.State) : option bool :=
  let inputs := inputs isRouting markers in
  if bool_decide (List.length inputs = 1) then
    match get inputs 0 with
    | None => None
    | Some first =>
        Some (bool_decide (0 < keys_length first)
              && bool_decide (List.length (Inputs.suggestions ist) = 0)
              && negb isRouting
              && Inputs.isDirtyRef ist)
    end
  else Some false.

(** What the parameter pattern of [formatAddress] reads from an entry of
    the suggestions: the keys of a place, and nothing from a string, which
    has none of the six properties. *)
Definition destructured (result : Inputs.Suggestion) : Place :=
  match result with
  | Inputs.Found p => p
  | Inputs.Message _ => emptyObject
  end.

(** The texts of the rows of the suggestion list, lines 221-231. *)
Definition rows (ist : Inputs.State) : list string :=
  (λ result, Inputs.formatAddress (destructured result)) <$> Inputs.suggestions ist.

(** [handleExitInputBubble], lines 179-182. *)
Definition handleExitInputBubble (ist : Inputs.State) : Inputs.State :=
  Inputs.setHasSuggestions false (Inputs.setSuggestions [] ist).

(** [handleExitInput], lines 62-69, on the [value] state of the input:
    the value and the state of [Inputs] after the key. *)
Definition handleExitInput (key : string) (defaultValue value : string)
    (ist : Inputs.State) : string * Inputs.State :=
  if bool_decide (key ≠ "Escape") then (value, ist)
  else (defaultValue, handleExitInputBubble ist).

(** [payload.data] as [handleResultClick] builds it: the focused index as
    it is (-1 before any input was used), the entry clicked, and [force]
    either [true] or left [undefined]. *)
Record ResultData : Type := mkResultData {
  idx : Z;
  marker : Inputs.Suggestion;
  geocode : bool;
  force : option bool;
}.

(** [handleResultClick], lines 129-155: the state of [Inputs] after it,
    and the data and the source it dispatches on the channel [Markers]. *)
Definition handleResultClick (result : Inputs.Suggestion) (isRouting : bool)
    (markers : list (Slot Place)) (ist : Inputs.State)
  : Inputs.State * (ResultData * string) :=
  let after := Inputs.setHasSuggestions false (Inputs.setSuggestions [] ist) in
  let force :=
    if negb isRouting && bool_decide (List.length markers = 0) then Some true
    else if negb isRouting && bool_decide (List.length markers = 1) then Some true
    else if bool_decide (List.length markers = 2) then Some true
    else None in
  (after,
   ({| idx := Inputs.focusedInputIdx ist; marker := result; geocode := false;
       force := force |},
    "routingMenu")).

(** The capsule as [App.handleMarkers] takes it, when the entry is a place
    and the index an array index.  [handleMarkers] reads [force] through
    [!force] only, under which [undefined] is [false]. *)
Definition as_capsule (dispatched : ResultData * string) : option App.MarkersCapsule :=
  match marker dispatched.1 with
  | Inputs.Found p =>
      if decide (0 ≤ idx dispatched.1)%Z then
        Some {| App.markers_event :=
                  App.setMarker
                    (Some {| App.idx := Z.to_nat (idx dispatched.1);
                             App.lngLat := None;
                             App.marker := Some p;
                             App.geocode := geocode dispatched.1;
                             App.force := default false (force dispatched.1) |});
                App.markers_source := dispatched.2 |}
      else None
  | Inputs.Message _ => None
  end.

(** What can happen to a mounted [Inputs]: an input reports a debounced
    value and its search settles, a suggestion is clicked, a key is
    released in an input. *)
Inductive Event : Type :=
| ValueChange (value : string) (bias : LngLat) (idx : nat)
    (answer : Outcome (list Place))
| ResultClick (result : Inputs.Suggestion) (isRouting : bool)
    (markers : list (Slot Place))
| KeyUp (key : string) (defaultValue value : string).

Definition step (ist : Inputs.State) (ev : Event) : Inputs.State :=
  match ev with
  | ValueChange value bias idx answer =>
      Inputs.handleValueChange value bias idx answer ist
  | ResultClick result isRouting markers =>
      (handleResultClick result isRouting markers ist).1
  | KeyUp key defaultValue value =>
      (handleExitInput key defaultValue value ist).2
  end.

Definition run (ist : Inputs.State) (evs : list Event) : Inputs.State :=
  foldl step ist evs.

End RoutingInputs.

(** ** More notions used to state properties *)

Module Notions.

Import App.

(** The slot holds an object. *)
Definition holds_object (s : Slot Place) : Prop := ∃ m, s = Obj m.

(** The events of [App] with a setMarker capsule as the dispatchers of the
    sample send them in the state at hand. *)
Definition sample_event (st : State) (ev : Event) : Prop :=
  match ev with
  | HubMarkers data _ => Spec.sample_dispatch st data
  | _ => True
  end.

Section Runs.

Variable defaultState : AppContext.DefaultState.
Variable CAR TRUCK : string.
Variable UnitsEnum : string → option AppContext.UnitsEntry.
Variable fitBounds :
  Viewport → LngLat * LngLat → Padding → option (number * number * number).

(** Every event of the sequence is a [sample_event] in the state it
    meets. *)
Fixpoint sample_events (st : State) (evs : list Event) : Prop :=
  match evs with
  | [] => True
  | ev :: rest =>
      sample_event st ev
      ∧ sample_events (App.step defaultState CAR TRUCK UnitsEnum fitBounds st ev).1 rest
  end.

End Runs.

(** The marker a setMarker capsule brings: what the geocoder answered
    ([undefined] when it failed) on the [geocode] path, the [marker] of the
    data otherwise. *)
Definition marker_of (d : SetMarkerData) (geo : Outcome Place) : option Place :=
  if geocode d then
    match geo with
    | Resolved p => Some p
    | Rejected => None
    end
  else marker d.

(** The route held is the default one or a response without
    [$metadata]. *)
Definition route_without_metadata (st : State) : Prop :=
  match route st with
  | Some r => metadata r = None
  | None => True
  end.

(** The suggestions are shown exactly when there are some, and then the
    focused index is the index of an input. *)
Definition suggestions_have_focus (ist : Inputs.State) : Prop :=
  (Inputs.hasSuggestions ist = true ↔ Inputs.suggestions ist ≠ [])
  ∧ (Inputs.suggestions ist ≠ [] → (0 ≤ Inputs.focusedInputIdx ist)%Z).

End Notions.

(** ** More concrete values *)

Module Cases.

Import App.

(** Truck options without the nested [Weight] object. *)
Definition noWeight : State :=
  setTruckOptions (delete "Weight" (truckOptions Sample.mounted)) Sample.mounted.

Definition changeUnitsCapsule (data : string) : RoutingCapsule :=
  {| routing_event := changeUnits data; routing_source := "" |}.

(** The inputs after the second input of [Sample.routingOne] was used and
    its search found two places. *)
Definition searched : Inputs.State :=
  RoutingInputs.run Inputs.initial
    [RoutingInputs.ValueChange "Main St" Sample.strip 1
       (Resolved [Sample.unlabelled; Sample.bellagio])].

(** The inputs after a search that found nothing. *)
Definition nothingFound : Inputs.State :=
  RoutingInputs.run Inputs.initial
    [RoutingInputs.ValueChange "Atlantis" Sample.strip 0 (Resolved [])].

End Cases.

(** ** Proof automation *)

(** Splits a handler along its tests. *)
Ltac split_handler :=
  repeat first [ progress cbn | case_bool_decide | case_match ].

(** * Properties *)

Import App.

(** ** Strings *)

Lemma trimEnd_idempotent (s : string) : trimEnd (trimEnd s) = trimEnd s.
Proof.
  induction s as [|c rest IH]; [reflexivity|].
  cbn [trimEnd]. destruct (trimEnd rest) as [|c' kept] eqn:E.
  - destruct (isWhiteSpace c) eqn:W; [reflexivity|].
    cbn [trimEnd]. by rewrite W.
  - change (trimEnd (String c (String c' kept)))
      with (match trimEnd (String c' kept) with
            | EmptyString => if isWhiteSpace c then EmptyString else String c EmptyString
            | k => String c k
            end).
    by rewrite IH.
Qed.

Lemma trimEnd_keeps_head (c : ascii) (rest : string) :
  isWhiteSpace c = false → ∃ kept, trimEnd (String c rest) = String c kept.
Proof.
  intros W. cbn [trimEnd]. destruct (trimEnd rest) as [|c' kept].
  - rewrite W. by eexists.
  - by eexists.
Qed.

Lemma trimStart_head (s : string) :
  trimStart s = "" ∨ ∃ c rest, trimStart s = String c rest ∧ isWhiteSpace c = false.
Proof.
  induction s as [|c rest IH]; [by left|].
  cbn [trimStart]. destruct (isWhiteSpace c) eqn:W; [exact IH|].
  right. by exists c, rest.
Qed.

Lemma trim_idempotent (s : string) : trim (trim s) = trim s.
Proof.
  unfold trim. destruct (trimStart_head s) as [E | (c & rest & E & W)]; rewrite E.
  - reflexivity.
  - destruct (trimEnd_keeps_head c rest W) as [kept K].
    replace (trimStart (trimEnd (String c rest))) with (trimEnd (String c rest)).
    + apply trimEnd_idempotent.
    + rewrite K. cbn [trimStart]. by rewrite W.
Qed.

(** ** formatAddress *)

Lemma truthy_spec (v : option string) :
  truthy v = true ↔ ∃ l, v = Some l ∧ l ≠ "".
Proof.
  destruct v as [[|c l]|]; cbn; split; try done.
  - by intros (l & [= <-] & H).
  - intros _. by eexists.
  - by intros (l & [=] & _).
Qed.

Lemma formatAddress_joined (a : Place) :
  truthy (label a) = false →
  Inputs.formatAddress a = join ", " (Spec.defined_address_fields a).
Proof.
  intros T. unfold Inputs.formatAddress, Spec.defined_address_fields.
  rewrite T. by destruct (street a), (addressNumber a), (postalCode a), (municipality a).
Qed.

(** C9, as the code has it: [formatAddress] returns the label when the
    label is a non-empty string; when the label is absent or empty it
    returns the defined ones of street, addressNumber, postalCode and
    municipality, in that order, joined with a comma and a space.  The
    result does not depend on the country, and it is the empty string for a
    record with no (or an empty) label and none of the four fields. *)
Theorem formatAddress_label_or_joined_fields (a : Place) :
  Inputs.formatAddress a =
    match label a with
    | Some l =>
        if decide (l = "") then join ", " (Spec.defined_address_fields a) else l
    | None => join ", " (Spec.defined_address_fields a)
    end
  ∧ (∀ c, Inputs.formatAddress
            (mkPlace (geometry a) (addressNumber a) c (label a) (municipality a)
               (neighborhood a) (postalCode a) (region a) (street a)
               (subRegion a) (source a))
          = Inputs.formatAddress a)
  ∧ (label a = None ∨ label a = Some "" →
     street a = None → addressNumber a = None →
     postalCode a = None → municipality a = None →
     Inputs.formatAddress a = "").
Proof.
  split; [|split].
  - destruct (label a) as [l|] eqn:L.
    + destruct (decide (l = "")) as [->|N].
      * apply formatAddress_joined. by rewrite L.
      * unfold Inputs.formatAddress. rewrite L.
        destruct l; [done|reflexivity].
    + apply formatAddress_joined. by rewrite L.
  - intros c. reflexivity.
  - intros [L|L] S N P M; unfold Inputs.formatAddress; by rewrite L, S, N, P, M.
Qed.

(** C9 as stated fails: the label of [Sample.blankLabel] is present (it is
    the empty string), and [formatAddress] returns the street instead. *)
Lemma formatAddress_blank_label :
  label Sample.blankLabel = Some ""
  ∧ Inputs.formatAddress Sample.blankLabel = "S Main St".
Proof. split; reflexivity. Qed.

Lemma formatAddress_examples :
  Inputs.formatAddress Sample.unlabelled = "S Main St, 495, 89101, Las Vegas"
  ∧ Inputs.formatAddress Sample.bellagio
    = "3600 S Las Vegas Blvd, Las Vegas, NV, 89109, USA"
  ∧ Inputs.formatAddress emptyObject = "".
Proof. repeat split; reflexivity. Qed.

(** ** The search input *)

Lemma searchByText_call_spec (value : string) (bias : LngLat)
    (sent : string) (opts : Inputs.SearchOptions) :
  Inputs.searchByText_call value bias = Some (sent, opts)
  ↔ trim value ≠ "" ∧ sent = value
    ∧ opts = {| Inputs.biasPosition := bias; Inputs.maxResults := 5 |}.
Proof.
  unfold Inputs.searchByText_call. destruct (decide (trim value = "")) as [E|N].
  - split; [done|]. by intros (N & _).
  - split.
    + by intros [= <- <-].
    + by intros (_ & -> & ->).
Qed.

(** C5: one run of the input's effect leads to a remote [searchByText]
    call exactly when the ref holds the handler, the debounced value
    differs from the input's default (the marker's formatted address) and
    it does not trim to the empty string; the call carries the trimmed
    text, and the viewport center of the context as bias position. *)
Theorem input_search_after_debounced_change
    (marker : Place) (debouncedValue : string) (debouncedViewport : Viewport)
    (idx : nat) (handler : bool) (sent : string) (opts : Inputs.SearchOptions) :
  Inputs.RoutingMenuInput_search marker debouncedValue
    (viewportCenter debouncedViewport) idx handler = Some (sent, opts)
  ↔ handler = true
    ∧ debouncedValue ≠ Inputs.formatAddress marker
    ∧ trim debouncedValue ≠ ""
    ∧ sent = trim debouncedValue
    ∧ opts = {| Inputs.biasPosition :=
                  (longitude debouncedViewport, latitude debouncedViewport);
                Inputs.maxResults := 5 |}.
Proof.
  unfold Inputs.RoutingMenuInput_search, Inputs.RoutingMenuInput_effect.
  destruct (bool_decide_reflect (debouncedValue ≠ Inputs.formatAddress marker))
    as [D|D]; destruct handler; cbn [andb].
  - rewrite searchByText_call_spec, trim_idempotent. unfold viewportCenter.
    split.
    + intros (T & S & O). by repeat split.
    + intros (_ & _ & T & S & O). by repeat split.
  - split; [done|]. by intros ([=] & _).
  - split; [done|]. intros (_ & N & _). by destruct D.
  - split; [done|]. by intros ([=] & _).
Qed.

Lemma input_search_after_debounced_change_witness :
  Inputs.RoutingMenuInput_search Sample.unlabelled "  Bellagio "
    (viewportCenter (viewport Sample.mounted)) 0 true
  = Some ("Bellagio",
          {| Inputs.biasPosition :=
               (longitude (viewport Sample.mounted), latitude (viewport Sample.mounted));
             Inputs.maxResults := 5 |}).
Proof.
  apply (proj2 (input_search_after_debounced_change Sample.unlabelled "  Bellagio "
                  (viewport Sample.mounted) 0 true "Bellagio" _)).
  repeat split; vm_compute; congruence.
Defined.

Lemma blank_input_never_searches (marker : Place) (debouncedValue : string)
    (center : LngLat) (idx : nat) (handler : bool) :
  trim debouncedValue = "" →
  Inputs.RoutingMenuInput_search marker debouncedValue center idx handler = None.
Proof.
  intros E. unfold Inputs.RoutingMenuInput_search, Inputs.RoutingMenuInput_effect.
  destruct (_ && _); [|done].
  unfold Inputs.searchByText_call. by rewrite trim_idempotent, E.
Qed.

(** ** searchByText and the route calculation *)

Lemma searchByText_rejected (value : string) (bias : LngLat) (ist : Inputs.State) :
  Inputs.searchByText value bias Rejected ist = ist.
Proof. unfold Inputs.searchByText. by destruct (Inputs.searchByText_call value bias). Qed.

Lemma route_settled_rejected (st : State) : route_settled Rejected st = st.
Proof. reflexivity. Qed.

Lemma routeEffect_rejected (st : State) : routeEffect Rejected st = st.
Proof. unfold routeEffect. by destruct (routeEffect_call st). Qed.

Lemma searchByText_resolved (value : string) (bias : LngLat) (res : list Place)
    (ist : Inputs.State) :
  trim value ≠ "" →
  Inputs.searchByText value bias (Resolved res) ist
  = Inputs.setHasSuggestions true
      (Inputs.setSuggestions
         (match res with
          | [] => [Inputs.Message Inputs.noResult]
          | _ :: _ => Inputs.Found <$> res
          end) ist).
Proof.
  intros N. unfold Inputs.searchByText, Inputs.searchByText_call.
  destruct (decide (trim value = "")); [done|].
  destruct res; reflexivity.
Qed.

(** C3, as the code has it: a resolved [searchByText] call sets the
    suggestions to the list of results of that call when the list is not
    empty, and to the single entry "No result found for this address." when
    it is empty; a resolved route calculation sets the route to the
    response with only [$metadata] removed. *)
Theorem resolved_responses_reach_the_state (value : string) (bias : LngLat)
    (res : list Place) (ist : Inputs.State) (answer : RouteResult) (st : State) :
  trim value ≠ "" →
  Inputs.suggestions (Inputs.searchByText value bias (Resolved res) ist)
  = match res with
    | [] => [Inputs.Message Inputs.noResult]
    | _ :: _ => Inputs.Found <$> res
    end
  ∧ route (route_settled (Resolved answer) st) = Some (delete_metadata answer)
  ∧ Legs (delete_metadata answer) = Legs answer
  ∧ Summary (delete_metadata answer) = Summary answer
  ∧ metadata (delete_metadata answer) = None.
Proof.
  intros N. rewrite (searchByText_resolved _ _ _ _ N). by repeat split.
Qed.

Lemma resolved_responses_reach_the_state_witness :
  Inputs.suggestions
    (Inputs.searchByText "Bellagio" Sample.strip
       (Resolved [Sample.bellagio; Sample.unlabelled]) Inputs.initial)
  = [Inputs.Found Sample.bellagio; Inputs.Found Sample.unlabelled]
  ∧ route (route_settled (Resolved Sample.response) Sample.mounted)
    = Some (delete_metadata Sample.response)
  ∧ Legs (delete_metadata Sample.response) = Legs Sample.response
  ∧ Summary (delete_metadata Sample.response) = Summary Sample.response
  ∧ metadata (delete_metadata Sample.response) = None.
Proof.
  apply (resolved_responses_reach_the_state "Bellagio" Sample.strip
           [Sample.bellagio; Sample.unlabelled] Inputs.initial
           Sample.response Sample.mounted).
  vm_compute. congruence.
Defined.

(** C3 as stated fails: a call that resolves with no result leaves the
    suggestions different from the (empty) list it returned. *)
Lemma empty_result_is_not_shown_as_returned :
  trim "Bellagio" ≠ ""
  ∧ Inputs.suggestions
      (Inputs.searchByText "Bellagio" Sample.strip (Resolved []) Inputs.initial)
    = [Inputs.Message "No result found for this address."]
  ∧ Inputs.suggestions
      (Inputs.searchByText "Bellagio" Sample.strip (Resolved []) Inputs.initial)
    ≠ Inputs.Found <$> [].
Proof. repeat split; vm_compute; congruence. Qed.

Section Properties.

Variable defaultState : AppContext.DefaultState.
Variable CAR TRUCK : string.
Variable UnitsEnum : string → option AppContext.UnitsEntry.
Variable fitBounds :
  Viewport → LngLat * LngLat → Padding → option (number * number * number).

Local Abbreviation resetView := (App.resetView defaultState).
Local Abbreviation handleRouting := (App.handleRouting defaultState CAR TRUCK UnitsEnum).
Local Abbreviation handleMarkers := (App.handleMarkers defaultState).
Local Abbreviation routeZoomEffect := (App.routeZoomEffect fitBounds).
Local Abbreviation step := (App.step defaultState CAR TRUCK UnitsEnum fitBounds).
Local Abbreviation run := (App.run defaultState CAR TRUCK UnitsEnum fitBounds).
Local Abbreviation initial := (App.initial defaultState).

(** ** resetView *)

(** C10: [resetView] sets markers, route, isRouting, routingMode,
    truckOptions, carOptions and departureTime to their values in
    [defaultState], clears both zoom flags, and leaves the viewport, the
    distanceUnit and the units as they were; the events endRouting,
    closeToast and cleanUp do exactly that. *)
Theorem resetView_restores_defaults_and_frames (st : State) (src : string)
    (geo : Outcome Place) :
  markers (resetView st) = AppContext.markers defaultState
  ∧ route (resetView st) = None
  ∧ isRouting (resetView st) = AppContext.isRouting defaultState
  ∧ routingMode (resetView st) = AppContext.routingMode defaultState
  ∧ truckOptions (resetView st) = AppContext.truckOptions defaultState
  ∧ carOptions (resetView st) = AppContext.carOptions defaultState
  ∧ departureTime (resetView st) = AppContext.departureTime defaultState
  ∧ isRouteZoomedRef (resetView st) = false
  ∧ isPointZoomed (resetView st) = false
  ∧ viewport (resetView st) = viewport st
  ∧ distanceUnit (resetView st) = distanceUnit st
  ∧ units (resetView st) = units st
  ∧ handleRouting (Some {| routing_event := endRouting; routing_source := src |}) st
    = resetView st
  ∧ handleMarkers {| markers_event := closeToast; markers_source := src |} geo st
    = resetView st
  ∧ handleMarkers {| markers_event := cleanUp; markers_source := src |} geo st
    = resetView st.
Proof. repeat split. Qed.

(** ** Map clicks *)

(** C7: a click with at least one marker and routing mode off dispatches
    cleanUp, whose handling resets the view (no marker is left, the default
    state holding none, and none is created whatever the geocoder would
    answer); otherwise it dispatches setMarker from the source "map" with
    geocode = true at index 0, with force = true for zero or two markers and
    force = false for exactly one, in which case the existing marker ends
    in the second slot behind the new one.  The markers state holds at most
    two markers. *)
Theorem mapClick_case_split (e : LngLat) (st : State) (geo : Outcome Place) :
  AppContext.markers defaultState = [] →
  List.length (markers st) ≤ 2 →
  (0 < List.length (markers st) ∧ isRouting st = false →
     handleMapClick e st = {| markers_event := cleanUp; markers_source := "" |}
     ∧ handleMarkers (handleMapClick e st) geo st = resetView st
     ∧ markers (handleMarkers (handleMapClick e st) geo st) = [])
  ∧ (¬ (0 < List.length (markers st) ∧ isRouting st = false) →
     ∃ f, handleMapClick e st
          = {| markers_event :=
                 setMarker (Some {| idx := 0; lngLat := Some e; marker := None;
                                    geocode := true; force := f |});
               markers_source := "map" |}
        ∧ (List.length (markers st) = 0 ∨ List.length (markers st) = 2 → f = true)
        ∧ (List.length (markers st) = 1 →
           f = false
           ∧ ∀ m p, markers st = [Obj m] →
               markers (handleMarkers (handleMapClick e st) (Resolved p) st)
               = [Obj (with_source (Some p) "map"); Obj m])).
Proof.
  intros D Le. unfold handleMapClick. split.
  - intros [L R]. rewrite bool_decide_true by done. rewrite R. cbn.
    by repeat split.
  - intros N.
    assert (bool_decide (0 < List.length (markers st)) && negb (isRouting st) = false)
      as ->.
    { apply not_true_is_false. intros T. apply N.
      apply andb_true_iff in T as [T1 T2]. apply bool_decide_eq_true in T1.
      split; [done|]. by destruct (isRouting st). }
    destruct (markers st) as [|a [|b [|c rest]]] eqn:M; cbn in Le; [| | |lia].
    + exists true. cbn. split; [done|]. split; [done|]. by intros [=].
    + exists false. cbn. split; [done|]. split; [by intros [[=]|[=]]|].
      intros _. split; [done|]. intros m p [= ->].
      unfold App.handleMarkers. cbn. by rewrite M.
    + exists true. cbn. split; [done|]. split; [done|]. by intros [=].
Qed.

(** With more than two markers in routing mode the click dispatches a
    setMarker without data, which [handleMarkers] does not survive: the
    state stays as it is. *)
Lemma mapClick_with_more_than_two_markers (e : LngLat) (st : State)
    (geo : Outcome Place) :
  2 < List.length (markers st) → isRouting st = true →
  handleMapClick e st = {| markers_event := setMarker None; markers_source := "map" |}
  ∧ handleMarkers (handleMapClick e st) geo st = st.
Proof.
  intros L R. unfold handleMapClick. rewrite R, andb_false_r.
  destruct (markers st) as [|a [|b [|c rest]]]; cbn in L; try lia.
  by cbn.
Qed.

(** *** At most two markers

    The capsules that the dispatchers of the sample send keep the markers
    at two or fewer. *)

Lemma length_spread {A} (a : list (Slot A)) : List.length (spread a) = List.length a.
Proof. unfold spread. apply length_fmap. Qed.

Lemma length_set {A} (i : nat) (v : Slot A) (a : list (Slot A)) :
  List.length (set i v a) = Nat.max (List.length a) (S i).
Proof.
  unfold set. destruct (decide (i < List.length a)).
  - rewrite length_insert. lia.
  - rewrite !length_app, length_replicate. cbn. lia.
Qed.

Lemma handleMarkers_at_most_two (data : MarkersCapsule) (geo : Outcome Place)
    (st : State) :
  List.length (AppContext.markers defaultState) ≤ 2 →
  List.length (markers st) ≤ 2 →
  Spec.sample_dispatch st data →
  List.length (markers (handleMarkers data geo st)) ≤ 2.
Proof.
  intros D L Range. unfold Spec.sample_dispatch in Range.
  destruct data as [ev src]. cbn in Range.
  destruct ev as [| | |[d|]|]; cbn; try done.
  - unfold swapped. repeat case_bool_decide; rewrite ?length_set; cbn; lia.
  - destruct (Range d eq_refl) as [I F].
    destruct (bool_decide _ && negb (force d)) eqn:T.
    + cbn. rewrite !length_spread.
      apply andb_true_iff in T as [_ T].
      destruct (decide (List.length (markers st) = 2)) as [E|N]; [|lia].
      rewrite (F E) in T. done.
    + rewrite <- (length_spread (markers st)) in L.
      destruct (bool_decide (idx d = 0)); cbn; rewrite length_set; lia.
Qed.

Lemma mapClick_at_most_two (e : LngLat) (geo : Outcome Place) (st : State) :
  List.length (AppContext.markers defaultState) ≤ 2 →
  List.length (markers st) ≤ 2 →
  List.length (markers (handleMarkers (handleMapClick e st) geo st)) ≤ 2.
Proof.
  intros D L. apply handleMarkers_at_most_two; [done..|].
  intros d. unfold handleMapClick.
  destruct (bool_decide (0 < List.length (markers st)) && negb (isRouting st));
    [done|].
  destruct (markers st) as [|a [|b [|c rest]]]; cbn in *; try lia.
  - intros [= <-]. cbn. split; [lia | done].
  - intros [= <-]. cbn. split; [lia | done].
  - intros [= <-]. cbn. split; [lia | done].
Qed.

(** ** Swapping markers *)

Lemma swapped_two (a b : Slot Place) :
  swapped [a; b] = [stored (get [a; b] 1); stored (get [a; b] 0)].
Proof. reflexivity. Qed.

Lemma swapped_twice (a b : Slot Place) : swapped (swapped [a; b]) = spread [a; b].
Proof. by destruct a, b. Qed.

Lemma spread_dense {A} (a : list (Slot A)) : Spec.dense a → spread a = a.
Proof.
  unfold Spec.dense, spread. induction 1 as [|s a' N _ IH]; [done|].
  cbn. rewrite IH. by destruct s.
Qed.

Lemma setMarkers_same (st : State) : setMarkers (markers st) st = st.
Proof. by destruct st. Qed.

(** C8, as the code has it: on a markers state of length two, swapMarkers
    puts what index 1 reads first and what index 0 reads second; doing it
    twice gives the spread of the original array, which is the original
    state when the array has no hole.  On a state of length one it gives
    what index 0 reads, the one marker, followed by an empty object. *)
Theorem swapMarkers_on_two_and_one (src : string) (geo : Outcome Place) (st : State) :
  let swap := handleMarkers {| markers_event := swapMarkers; markers_source := src |} geo in
  (List.length (markers st) = 2 →
     markers (swap st)
     = [stored (get (markers st) 1); stored (get (markers st) 0)]
     ∧ markers (swap (swap st)) = spread (markers st)
     ∧ (Spec.dense (markers st) →
        (∀ a b, markers st = [a; b] → markers (swap st) = [b; a])
        ∧ swap (swap st) = st))
  ∧ (List.length (markers st) = 1 →
     markers (swap st) = [stored (get (markers st) 0); Obj emptyObject]
     ∧ ∀ m, markers st = [Obj m] → markers (swap st) = [Obj m; Obj emptyObject]).
Proof.
  cbn zeta. split.
  - intros L. destruct st as [v ms r rt rm t c d du u z pz]. cbn in *.
    destruct ms as [|a [|b [|]]]; try done.
    split; [reflexivity|]. split; [apply swapped_twice|].
    intros Dn. split.
    + intros a' b' [= <- <-].
      apply Forall_cons in Dn as [Na Dn]. apply Forall_cons in Dn as [Nb _].
      by destruct a, b.
    + unfold setMarkers; cbn. rewrite swapped_twice, spread_dense; done.
  - intros L. destruct (markers st) as [|a [|]] eqn:M; try done.
    unfold App.handleMarkers. cbn. rewrite M. split; [reflexivity|].
    by intros m [= ->].
Qed.

(** ** The route calculation effect *)

Lemma every_valid_marker (ms : list (Slot Place)) :
  every valid_marker ms = true
  ↔ Forall (λ s, s = Hole ∨ Spec.defined_nonempty_object s) ms.
Proof.
  unfold every. rewrite forallb_forall, Forall_forall.
  split; intros H s I.
  - specialize (H s (proj1 (list_elem_of_In _ _) I)).
    destruct s as [| |m]; [by left|done|].
    right. exists m. split; [done|]. by apply bool_decide_eq_true in H.
  - specialize (H s (proj2 (list_elem_of_In _ _) I)).
    destruct H as [-> | (m & -> & K)]; [done|].
    by apply bool_decide_eq_true.
Qed.

Lemma marker_points_is_Some (ms : list (Slot Place)) :
  is_Some (marker_points ms)
  ↔ Forall (λ s, s = Hole ∨ ∃ m, s = Obj m ∧ is_Some (geometry m)) ms.
Proof.
  induction ms as [|s ms IH]; cbn [marker_points].
  - split; [constructor | by eexists].
  - rewrite Forall_cons, <- IH. destruct s as [| |m]; cbn.
    + destruct (marker_points ms); cbn; split.
      * intros _. split; [by left | by eexists].
      * by eexists.
      * by intros [? ?].
      * by intros [_ [? ?]].
    + split; [by intros [? ?]|]. by intros [[?|(? & ? & ?)] _].
    + destruct (geometry m) as [g|] eqn:G; cbn.
      * destruct (marker_points ms); cbn; split.
        -- intros _. split; [|by eexists]. right. exists m. by rewrite G.
        -- by eexists.
        -- by intros [? ?].
        -- by intros [_ [? ?]].
      * split; [by intros [? ?]|].
        intros [[?|(m' & [= <-] & [? E])] _]; [done|]. by rewrite G in E.
Qed.

Lemma routeEffect_call_is_Some (st : State) :
  is_Some (routeEffect_call st)
  ↔ route_guard (markers st) = true ∧ is_Some (marker_points (markers st)).
Proof.
  unfold routeEffect_call. destruct (route_guard (markers st)).
  - destruct (marker_points (markers st)); cbn; split.
    + by intros _.
    + by eexists.
    + by intros [? ?].
    + by intros [_ [? ?]].
  - split; [by intros [? ?] | by intros [? _]].
Qed.

Lemma route_guard_spec (ms : list (Slot Place)) :
  route_guard ms = true
  ↔ 2 ≤ List.length ms ∧ Forall (λ s, s = Hole ∨ Spec.defined_nonempty_object s) ms.
Proof.
  unfold route_guard. rewrite andb_true_iff, bool_decide_eq_true, every_valid_marker.
  done.
Qed.

(** X19: the route effect makes no call when the markers array is shorter
    than two, holds an undefined marker or holds an empty placeholder
    object; a call it makes carries the markers' points.  On a markers
    state without holes whose non-empty markers all have a geometry, the
    call is made if and only if the list contains at least two markers and
    every marker is a defined, non-empty object. *)
Theorem route_call_only_with_two_valid_markers (st : State) :
  (is_Some (routeEffect_call st) →
     2 ≤ List.length (markers st)
     ∧ Forall (λ s, s ≠ Undefined ∧ s ≠ Obj emptyObject) (markers st)
     ∧ ∃ args, routeEffect_call st = Some args
               ∧ marker_points (markers st) = Some (arg_positions args))
  ∧ (Forall Spec.located (markers st) →
     (is_Some (routeEffect_call st) ↔ Spec.at_least_two_valid_markers (markers st))).
Proof.
  split.
  - intros C. pose proof C as C'.
    apply routeEffect_call_is_Some in C as [G P].
    apply route_guard_spec in G as [L V]. split; [done|]. split.
    + eapply Forall_impl; [exact V|]. cbn.
      intros s [-> | (m & -> & K)]; [done|]. split; [done|].
      intros [= ->]. cbn in K. lia.
    + destruct C' as [args E]. exists args. split; [done|].
      unfold routeEffect_call in E. destruct (route_guard (markers st)); [|done].
      destruct (marker_points (markers st)); [|done]. by injection E as <-.
  - intros W. rewrite routeEffect_call_is_Some, route_guard_spec, marker_points_is_Some.
    unfold Spec.at_least_two_valid_markers. split.
    + intros [[L V] _]. split; [done|].
      rewrite Forall_forall in *. intros s I.
      destruct (V s I) as [-> | D]; [|done]. by destruct (W Hole I).
    + intros [L V]. split; [split; [done|]|].
      * eapply Forall_impl; [exact V|]. by right.
      * rewrite Forall_forall in *. intros s I.
        destruct (V s I) as (m & -> & K). right. exists m. split; [done|].
        destruct (W (Obj m) I) as [_ G]. by apply G.
Qed.

(** ** The route zoom effect *)

(** A handler either leaves the route and its zoom flag alone or resets
    the view. *)
Lemma handleRouting_route_zoom (message : option RoutingCapsule) (st : State) :
  (route (handleRouting message st) = route st
   ∧ isRouteZoomedRef (handleRouting message st) = isRouteZoomedRef st)
  ∨ handleRouting message st = resetView st.
Proof.
  destruct message as [[ev src]|]; [|by left].
  destruct ev; try (by left); try (by right);
    unfold App.handleRouting; split_handler; by left.
Qed.

Lemma handleMarkers_route_zoom (data : MarkersCapsule) (geo : Outcome Place)
    (st : State) :
  (route (handleMarkers data geo st) = route st
   ∧ isRouteZoomedRef (handleMarkers data geo st) = isRouteZoomedRef st)
  ∨ handleMarkers data geo st = resetView st.
Proof.
  destruct data as [ev src].
  destruct ev as [| | |[d|]|]; try (by left); try (by right).
  unfold App.handleMarkers. split_handler; by left.
Qed.

Lemma pointZoomEffect_route_zoom (dv : Viewport) (st : State) :
  route (pointZoomEffect dv st).1 = route st
  ∧ isRouteZoomedRef (pointZoomEffect dv st).1 = isRouteZoomedRef st.
Proof.
  unfold pointZoomEffect. split_handler; try done.
  all: unfold zoomToPoint; by destruct (point _).
Qed.


Lemma routeZoomEffect_sets_flag (dv : Viewport) (st : State) (bbox : BBox) :
  (routeZoomEffect dv st).2 = Some bbox →
  isRouteZoomedRef st = false
  ∧ isRouteZoomedRef (routeZoomEffect dv st).1 = true
  ∧ route (routeZoomEffect dv st).1 = route st
  ∧ ∃ r, route st = Some r ∧ bbox = RouteBBox (Summary r).
Proof.
  unfold App.routeZoomEffect. destruct (route st) as [r|] eqn:R; [|done].
  destruct (isRouteZoomedRef st) eqn:Z; [done|]. cbn.
  unfold zoomToRoute.
  destruct (RouteBBox (Summary r)) as [[[b0 b1] b2] b3] eqn:B.
  destruct (fitBounds _ _ _) as [[[lng lat] z]|]; cbn; [|done].
  intros [= <-]. repeat split; [done|]. by exists r.
Qed.

Lemma awaiting_zoom_resetView (st : State) : Spec.awaiting_zoom (resetView st) = 0.
Proof. reflexivity. Qed.

Lemma awaiting_zoom_kept (st st' : State) :
  (route st' = route st ∧ isRouteZoomedRef st' = isRouteZoomedRef st)
  ∨ st' = resetView st →
  Spec.awaiting_zoom st' ≤ Spec.awaiting_zoom st.
Proof.
  intros [[R Z] | ->].
  - unfold Spec.awaiting_zoom. by rewrite R, Z.
  - rewrite awaiting_zoom_resetView. lia.
Qed.

(** Each event pays for the zoom it causes: with a route result, or with
    the route that was awaiting its zoom. *)
Lemma step_budget (st : State) (ev : Event) :
  List.length (step st ev).2 + Spec.awaiting_zoom (step st ev).1
  ≤ (if is_route_result ev then 1 else 0) + Spec.awaiting_zoom st.
Proof.
  destruct ev as [m|d g|e|e g|v|dv|dv|[res|]]; cbn [App.step is_route_result fst snd length].
  - apply awaiting_zoom_kept, handleRouting_route_zoom.
  - apply awaiting_zoom_kept, handleMarkers_route_zoom.
  - apply awaiting_zoom_kept. left. by destruct e.
  - apply awaiting_zoom_kept, handleMarkers_route_zoom.
  - apply awaiting_zoom_kept. by left.
  - destruct (routeZoomEffect dv st) as [st' [bbox|]] eqn:E.
    + destruct (routeZoomEffect_sets_flag dv st bbox) as (Z & Z' & R' & r & R & _).
      { by rewrite E. }
      rewrite E in Z', R'. cbn in *. unfold Spec.awaiting_zoom.
      rewrite R', R, Z, Z'. cbn. lia.
    + cbn. revert E. unfold App.routeZoomEffect.
      destruct (route st) as [r|] eqn:R; [|intros [= <-]; lia].
      destruct (isRouteZoomedRef st) eqn:Z; cbn [negb]; [intros [= <-]; lia|].
      destruct (zoomToRoute _ _ _ _); [done|]. intros [= <-].
      unfold Spec.awaiting_zoom. cbn. rewrite R. lia.
  - apply awaiting_zoom_kept. left. apply pointZoomEffect_route_zoom.
  - unfold Spec.awaiting_zoom. cbn. destruct (route st); [destruct (isRouteZoomedRef st)|]; lia.
  - cbn. lia.
Qed.

Lemma run_budget (evs : list Event) (st : State) :
  List.length (run st evs).2 ≤ Spec.route_results evs + Spec.awaiting_zoom st.
Proof.
  revert st. induction evs as [|ev evs IH]; intros st; [cbn; lia|].
  cbn [App.run]. pose proof (step_budget st ev) as B.
  destruct (step st ev) as [st1 flown]. specialize (IH st1).
  destruct (run st1 evs) as [st2 flown']. cbn [fst snd] in *.
  rewrite length_app. unfold Spec.route_results in *. cbn [List.filter].
  destruct (is_route_result ev); cbn [List.length]; lia.
Qed.



End Properties.

(** ** The properties on the sample application *)

Lemma sample_states :
  markers Sample.mounted = []
  ∧ markers Sample.oneMarker = [Obj (with_source (Some Sample.bellagio) "map")]
  ∧ isRouting Sample.oneMarker = false
  ∧ markers Sample.lostMarker = [Obj (with_source None "map")]
  ∧ markers Sample.twoMarkers
    = [Obj (with_source (Some Sample.bellagio) "map");
       Obj (with_source (Some Sample.unlabelled) "map")]
  ∧ isRouting Sample.twoMarkers = true
  ∧ markers Sample.halfLocated
    = [Obj (with_source None "map"); Obj (with_source (Some Sample.bellagio) "map")]
  ∧ markers Sample.sparse = [Hole; Obj (with_source (Some Sample.bellagio) "routingMenu")]
  ∧ isRouteZoomedRef Sample.zoomed = true
  ∧ route Sample.zoomed = Some (delete_metadata Sample.response).
Proof. repeat split. Qed.

(** C1 on the code: the default state is mounted, the map is clicked and
    the reverse geocoding rejects.  [handleMarkers] then stores a marker
    that holds nothing but its source: it has no [geometry], it passes the
    non-empty-object test of the route effect, the point zoom effect throws
    on it, and in routing mode, next to a located marker, it passes the
    guard of the route effect while [marker.geometry.point] throws. *)
Theorem rejected_geocode_stores_marker_without_point :
  let lost := with_source None "map" in
  Sample.lostMarker = (Sample.step Sample.mounted (MapClick Sample.strip Rejected)).1
  ∧ markers Sample.lostMarker = [Obj lost]
  ∧ geometry lost = None
  ∧ valid_marker (Some lost) = true
  ∧ (pointZoomEffect (viewport Sample.mounted) Sample.lostMarker).2 = PointZoomTypeError
  ∧ markers Sample.halfLocated
    = [Obj lost; Obj (with_source (Some Sample.bellagio) "map")]
  ∧ route_guard (markers Sample.halfLocated) = true
  ∧ marker_points (markers Sample.halfLocated) = None.
Proof. repeat split. Qed.

(** The marker stored when the geocoder answers carries the coordinate of
    the place it answered. *)
Lemma resolved_geocode_stores_the_point (p : Place) (src : string) :
  geometry (with_source (Some p) src) = geometry p.
Proof. reflexivity. Qed.

(** C2 on the code: a rejected [searchByText] and a rejected
    [calculateRoute] leave the state as it was; a rejected reverse
    geocoding does not: on the mounted application the click that it
    answers adds a marker. *)
Theorem rejected_calls_and_the_state :
  (∀ value bias ist, Inputs.searchByText value bias Rejected ist = ist)
  ∧ (∀ st, routeEffect Rejected st = st)
  ∧ markers Sample.mounted = []
  ∧ markers (Sample.handleMarkers (handleMapClick Sample.strip Sample.mounted)
               Rejected Sample.mounted)
    = [Obj (with_source None "map")].
Proof.
  split; [exact searchByText_rejected|].
  split; [exact routeEffect_rejected|].
  split; reflexivity.
Qed.

(** C4 on the code: the route effect and the condition of the routing
    panel differ on two states the application reaches.
    [Sample.halfLocated] is routing mode after a located first click and a
    second click whose reverse geocoding rejects: it holds two markers, both
    defined, non-empty objects, the guard passes, [marker.geometry.point]
    throws on the marker stored without a geometry, and [calculateRoute] is
    not called.  [Sample.sparse] is the mounted application after a
    suggestion is set at index 1: it holds one marker behind a hole, [every]
    skips the hole, the guard passes, and [calculateRoute] is called with
    the one position. *)
Theorem route_call_differs_from_two_valid_markers :
  (Sample.halfLocated
   = (Sample.run Sample.mounted
        [HubRouting (Some Sample.startRoutingCapsule);
         MapClick Sample.strip (Resolved Sample.bellagio);
         RunPointZoomEffect (viewport Sample.mounted);
         MapClick Sample.strip Rejected]).1
   ∧ Spec.at_least_two_valid_markers (markers Sample.halfLocated)
   ∧ route_guard (markers Sample.halfLocated) = true
   ∧ marker_points (markers Sample.halfLocated) = None
   ∧ routeEffect_call Sample.halfLocated = None)
  ∧ (Sample.sparse
     = (Sample.step Sample.mounted (HubMarkers Sample.secondInputCapsule Rejected)).1
     ∧ markers Sample.sparse
       = [Hole; Obj (with_source (Some Sample.bellagio) "routingMenu")]
     ∧ ¬ Spec.at_least_two_valid_markers (markers Sample.sparse)
     ∧ route_guard (markers Sample.sparse) = true
     ∧ arg_positions <$> routeEffect_call Sample.sparse
       = Some [Hole; Obj ((-1151767 # 10000)%Q, (361126 # 10000)%Q)]).
Proof.
  split.
  - split; [reflexivity|]. split; [|by repeat split].
    split; [vm_compute; lia|].
    repeat constructor; eexists; (split; [reflexivity | vm_compute; lia]).
  - split; [reflexivity|]. split; [reflexivity|]. split; [|by repeat split].
    intros [_ V]. apply Forall_cons in V as [(m & [=] & _) _].
Qed.

Lemma route_call_only_with_two_valid_markers_witness :
  Forall Spec.located (markers Sample.twoMarkers)
  ∧ Spec.at_least_two_valid_markers (markers Sample.twoMarkers)
  ∧ is_Some (routeEffect_call Sample.twoMarkers).
Proof.
  assert (Forall Spec.located (markers Sample.twoMarkers)) as W.
  { repeat constructor; try done; intros m [= <-] _; by eexists. }
  assert (Spec.at_least_two_valid_markers (markers Sample.twoMarkers)) as V.
  { split; [vm_compute; lia|].
    repeat constructor; eexists; (split; [reflexivity | vm_compute; lia]). }
  split; [exact W|]. split; [exact V|].
  exact (proj2 (proj2 (route_call_only_with_two_valid_markers Sample.twoMarkers) W) V).
Defined.

(** C8 as stated fails.  A suggestion chosen for the second input while
    no marker is held leaves [Sample.sparse], a markers state of length two
    with a hole at index 0; two swaps leave a state that differs from it,
    also in whether the guard of the route effect passes. *)
Lemma swapMarkers_twice_on_sparse_array :
  let swap := Sample.handleMarkers Sample.swapCapsule Rejected in
  Spec.sample_dispatch Sample.mounted Sample.secondInputCapsule
  ∧ markers Sample.sparse
    = [Hole; Obj (with_source (Some Sample.bellagio) "routingMenu")]
  ∧ List.length (markers Sample.sparse) = 2
  ∧ markers (swap (swap Sample.sparse))
    = [Undefined; Obj (with_source (Some Sample.bellagio) "routingMenu")]
  ∧ markers (swap (swap Sample.sparse)) ≠ markers Sample.sparse
  ∧ route_guard (markers Sample.sparse) = true
  ∧ route_guard (markers (swap (swap Sample.sparse))) = false.
Proof.
  cbn zeta. split.
  { intros d [= <-]. cbn. split; [lia | done]. }
  split; [reflexivity|]. split; [reflexivity|]. split; [reflexivity|].
  split; [|split; reflexivity].
  vm_compute. discriminate.
Qed.

Lemma swapMarkers_on_two_and_one_witness :
  let swap := Sample.handleMarkers Sample.swapCapsule Rejected in
  List.length (markers Sample.twoMarkers) = 2
  ∧ Spec.dense (markers Sample.twoMarkers)
  ∧ markers (swap Sample.twoMarkers)
    = [Obj (with_source (Some Sample.unlabelled) "map");
       Obj (with_source (Some Sample.bellagio) "map")]
  ∧ swap (swap Sample.twoMarkers) = Sample.twoMarkers
  ∧ markers (swap Sample.routingOne)
    = [Obj (with_source (Some Sample.bellagio) "map"); Obj emptyObject].
Proof.
  cbn zeta.
  assert (Spec.dense (markers Sample.twoMarkers)) as Dn by (by repeat constructor).
  destruct (swapMarkers_on_two_and_one Sample.defaultState "" Rejected Sample.twoMarkers)
    as [Two _].
  destruct (swapMarkers_on_two_and_one Sample.defaultState "" Rejected Sample.routingOne)
    as [_ One].
  destruct (Two eq_refl) as (_ & _ & Dense).
  destruct (Dense Dn) as [Exchange Involution].
  destruct (One eq_refl) as [_ Placeholder].
  split; [reflexivity|]. split; [exact Dn|]. split; [|split].
  - exact (Exchange _ _ eq_refl).
  - exact Involution.
  - exact (Placeholder _ eq_refl).
Defined.

Lemma mapClick_case_split_witness :
  AppContext.markers Sample.defaultState = []
  ∧ List.length (markers Sample.oneMarker) ≤ 2
  ∧ List.length (markers Sample.routingOne) ≤ 2
  ∧ handleMapClick Sample.strip Sample.oneMarker
    = {| markers_event := cleanUp; markers_source := "" |}
  ∧ markers (Sample.handleMarkers (handleMapClick Sample.strip Sample.oneMarker)
               Rejected Sample.oneMarker) = []
  ∧ markers (Sample.handleMarkers (handleMapClick Sample.strip Sample.routingOne)
               (Resolved Sample.unlabelled) Sample.routingOne)
    = [Obj (with_source (Some Sample.unlabelled) "map");
       Obj (with_source (Some Sample.bellagio) "map")].
Proof.
  assert (List.length (markers Sample.oneMarker) ≤ 2) as L1 by (vm_compute; lia).
  assert (List.length (markers Sample.routingOne) ≤ 2) as L2 by (vm_compute; lia).
  split; [reflexivity|]. split; [exact L1|]. split; [exact L2|].
  destruct (mapClick_case_split Sample.defaultState Sample.strip Sample.oneMarker
              Rejected eq_refl L1) as [Clean _].
  destruct (mapClick_case_split Sample.defaultState Sample.strip Sample.routingOne
              (Resolved Sample.unlabelled) eq_refl L2) as [_ Dispatch].
  destruct Clean as (E & _ & M); [split; [vm_compute; lia | reflexivity]|].
  destruct Dispatch as (f & _ & _ & One); [by intros [_ [=]]|].
  destruct (One eq_refl) as [_ Shift].
  split; [exact E|]. split; [exact M|].
  exact (Shift _ Sample.unlabelled eq_refl).
Defined.


(** * Further properties *)

(** ** Arrays *)

Lemma get_spread {A} (a : list (Slot A)) (j : nat) : get (spread a) j = get a j.
Proof.
  unfold get, spread. rewrite list_lookup_fmap.
  destruct (a !! j) as [[| |o]|]; reflexivity.
Qed.

Lemma spread_is_dense {A} (a : list (Slot A)) : Spec.dense (spread a).
Proof.
  unfold Spec.dense, spread. apply Forall_fmap, Forall_forall.
  intros s _. cbn. by destruct s.
Qed.

Lemma get_set {A} (i j : nat) (v : Slot A) (a : list (Slot A)) :
  get (set i v a) j
  = if decide (j = i) then match v with Obj o => Some o | _ => None end
    else get a j.
Proof.
  unfold get, set. destruct (decide (i < List.length a)) as [In|Out].
  - destruct (decide (j = i)) as [->|N].
    + by rewrite list_lookup_insert_eq.
    + by rewrite list_lookup_insert_ne.
  - destruct (decide (j = i)) as [->|N].
    + rewrite lookup_app_r by lia. rewrite lookup_app_r; rewrite length_replicate; [|lia].
      by replace (i - List.length a - (i - List.length a)) with 0 by lia.
    + destruct (decide (j < List.length a)) as [Lt|Ge].
      * by rewrite lookup_app_l.
      * rewrite lookup_app_r by lia. rewrite (lookup_ge_None_2 a j) by lia.
        destruct (decide (j < i)) as [Lt|Gt].
        -- rewrite lookup_app_l by (rewrite length_replicate; lia).
           rewrite lookup_replicate_2 by lia. reflexivity.
        -- rewrite lookup_app_r by (rewrite length_replicate; lia).
           rewrite length_replicate.
           destruct (j - List.length a - (i - List.length a)) as [|k] eqn:K; [lia|].
           reflexivity.
Qed.

Lemma holds_objects_dense (a : list (Slot Place)) :
  Forall Notions.holds_object a → Spec.dense a.
Proof. intros H. eapply Forall_impl; [exact H|]. by intros s [m ->]. Qed.

(** ** The inputs rendered *)

(** X1: the list of inputs is never empty and never has a hole; it has one
    entry when there is no marker, two in routing mode with one marker,
    and as many entries as markers otherwise, so at most two whenever at
    most two markers are held. *)
Theorem inputs_never_empty_nor_sparse (isRouting : bool) (markers : list (Slot Place)) :
  let shown := RoutingInputs.inputs isRouting markers in
  shown ≠ []
  ∧ Spec.dense shown
  ∧ List.length shown
    = (if decide (List.length markers = 0) then 1
       else if isRouting && bool_decide (List.length markers = 1) then 2
       else List.length markers)
  ∧ (List.length markers ≤ 2 → List.length shown ≤ 2).
Proof.
  cbn zeta. unfold RoutingInputs.inputs.
  pose proof (spread_is_dense markers) as Dn.
  pose proof (length_spread markers) as Ls.
  destruct markers as [|s rest].
  - destruct isRouting; cbn; repeat split; try done; try lia;
      repeat constructor; done.
  - cbn [List.length] in *. rewrite decide_False by lia.
    destruct (negb (bool_decide (is_Some (get (spread (s :: rest)) 0))) && negb isRouting)
      eqn:First.
    + apply andb_true_iff in First as [_ R]. destruct isRouting; [done|]. cbn [andb].
      split; [by destruct s|]. split; [|split].
      * destruct s; cbn; apply Forall_cons; (split; [done|]);
          by apply Forall_cons in Dn as [_ Dn].
      * rewrite length_set, Ls. lia.
      * rewrite length_set, Ls. lia.
    + destruct (isRouting && bool_decide (List.length (spread (s :: rest)) < 2)) eqn:Few.
      * apply andb_true_iff in Few as [-> Few]. apply bool_decide_eq_true in Few.
        rewrite Ls in Few. destruct rest; [|cbn in Few; lia].
        cbn. split; [done|]. split; [|done].
        repeat constructor; [done | by destruct s].
      * split; [done|]. split; [done|]. rewrite Ls. split; [|done].
        destruct isRouting; [|done]. cbn [andb] in *.
        apply bool_decide_eq_false in Few. rewrite Ls in Few.
        rewrite bool_decide_false by lia. done.
Qed.

(** X2: the test of the Directions button never throws, and it passes
    exactly when routing mode is off, an input has been used, no
    suggestion is listed and the markers are one non-empty object. *)
Theorem directions_button_test (isRouting : bool) (markers : list (Slot Place))
    (ist : Inputs.State) :
  ∃ shown, RoutingInputs.showDirections isRouting markers ist = Some shown
    ∧ (shown = true
       ↔ isRouting = false ∧ Inputs.isDirtyRef ist = true
         ∧ Inputs.suggestions ist = []
         ∧ ∃ m, markers = [Obj m] ∧ 0 < keys_length m).
Proof.
  unfold RoutingInputs.showDirections, RoutingInputs.inputs.
  destruct markers as [|s [|t rest]].
  - destruct isRouting; cbn; eexists; (split; [reflexivity|]);
      split; try done; by intros (_ & _ & _ & m & [=] & _).
  - destruct s as [| |m]; destruct isRouting; cbn; eexists;
      (split; [reflexivity|]); split; try done;
      try (by intros (_ & _ & _ & m' & [=] & _)); try (by intros ([=] & _)).
    + rewrite !andb_true_iff, !bool_decide_eq_true. intros [[[K S] _] D].
      repeat split; [done| |by eexists].
      by destruct (Inputs.suggestions ist).
    + intros (_ & D & S & m' & [= <-] & K).
      rewrite !andb_true_iff, !bool_decide_eq_true. rewrite S. by repeat split.
  - assert (List.length (spread (s :: t :: rest)) ≠ 1) as N by (cbn; lia).
    destruct (negb _ && negb isRouting) eqn:First.
    + rewrite bool_decide_false by (rewrite length_set; cbn; lia).
      eexists. split; [reflexivity|]. split; [done|].
      by intros (_ & _ & _ & m & [=] & _).
    + destruct (isRouting && _) eqn:Few.
      * apply andb_true_iff in Few as [_ Few]. apply bool_decide_eq_true in Few.
        cbn in Few. lia.
      * rewrite bool_decide_false by done.
        eexists. split; [reflexivity|]. split; [done|].
        by intros (_ & _ & _ & m & [=] & _).
Qed.

Section MoreProperties.

Variable defaultState : AppContext.DefaultState.
Variable CAR TRUCK : string.
Variable UnitsEnum : string → option AppContext.UnitsEntry.
Variable fitBounds :
  Viewport → LngLat * LngLat → Padding → option (number * number * number).

Local Abbreviation resetView := (App.resetView defaultState).
Local Abbreviation handleRouting := (App.handleRouting defaultState CAR TRUCK UnitsEnum).
Local Abbreviation handleMarkers := (App.handleMarkers defaultState).
Local Abbreviation routeZoomEffect := (App.routeZoomEffect fitBounds).
Local Abbreviation step := (App.step defaultState CAR TRUCK UnitsEnum fitBounds).
Local Abbreviation run := (App.run defaultState CAR TRUCK UnitsEnum fitBounds).
Local Abbreviation initial := (App.initial defaultState).
Local Abbreviation sample_events :=
  (Notions.sample_events defaultState CAR TRUCK UnitsEnum fitBounds).

(** X3: whenever the swap button is rendered and every marker slot holds
    an object, the swapMarkers it dispatches reverses the list of inputs. *)
Theorem swap_button_reverses_inputs (src : string) (geo : Outcome Place) (st : State) :
  RoutingInputs.showSwap (isRouting st) (markers st) = true →
  Forall Notions.holds_object (markers st) →
  RoutingInputs.inputs (isRouting st)
    (markers (handleMarkers {| markers_event := swapMarkers; markers_source := src |}
                geo st))
  = reverse (RoutingInputs.inputs (isRouting st) (markers st)).
Proof.
  unfold RoutingInputs.showSwap. intros Shown Objects.
  apply bool_decide_eq_true in Shown. cbn.
  destruct (markers st) as [|a [|b [|c rest]]].
  - destruct (isRouting st); vm_compute in Shown; lia.
  - apply Forall_cons in Objects as [[m ->] _].
    destruct (isRouting st); [reflexivity | vm_compute in Shown; lia].
  - apply Forall_cons in Objects as [[m ->] Objects].
    apply Forall_cons in Objects as [[n ->] _].
    by destruct (isRouting st).
  - apply Forall_cons in Objects as [[m ->] _].
    unfold RoutingInputs.inputs in Shown.
    rewrite bool_decide_true in Shown by (by eexists). cbn [negb andb] in Shown.
    rewrite (bool_decide_false (List.length _ < 2)) in Shown by (cbn; lia).
    rewrite andb_false_r in Shown. cbn in Shown. lia.
Qed.

(** ** setMarker *)

Lemma spread_spread {A} (a : list (Slot A)) : spread (spread a) = spread a.
Proof. apply spread_dense, spread_is_dense. Qed.

Lemma setMarker_shifts (d : SetMarkerData) (src : string) (geo : Outcome Place)
    (st : State) :
  is_Some (get (markers st) (idx d)) → force d = false →
  handleMarkers {| markers_event := setMarker (Some d); markers_source := src |} geo st
  = setMarkers (Obj (with_source (Notions.marker_of d geo) src) :: spread (markers st)) st.
Proof.
  intros Occupied Free. unfold App.handleMarkers, Notions.marker_of. cbn.
  rewrite get_spread, bool_decide_true, Free by done. cbn.
  by rewrite spread_spread.
Qed.

Lemma setMarker_puts (d : SetMarkerData) (src : string) (geo : Outcome Place)
    (st : State) :
  get (markers st) (idx d) = None ∨ force d = true →
  handleMarkers {| markers_event := setMarker (Some d); markers_source := src |} geo st
  = setMarkers
      (set (idx d) (Obj (with_source (Notions.marker_of d geo) src))
         (spread (markers st)))
      (if bool_decide (idx d = 0) then write_isPointZoomed false st else st).
Proof.
  intros Put. unfold App.handleMarkers, Notions.marker_of. cbn.
  rewrite get_spread.
  assert (bool_decide (is_Some (get (markers st) (idx d))) && negb (force d) = false)
    as ->; [|done].
  destruct Put as [E | F].
  - rewrite E. rewrite bool_decide_false; [done|]. by intros [? ?].
  - rewrite F. apply andb_false_r.
Qed.

Lemma with_source_valid (marker : option Place) (src : string) :
  source (with_source marker src) = Some src
  ∧ valid_marker (Some (with_source marker src)) = true.
Proof.
  split; [reflexivity|]. cbn. apply bool_decide_eq_true.
  unfold keys_length. cbn. lia.
Qed.

(** X4: a setMarker always stores an object that carries the source of its
    capsule and so passes the non-empty-object test.  On an occupied index
    without force it puts the object in front of all the markers; otherwise
    the object is read back at the index, every other index reads what it
    read before, the array grows to reach the index, and the point zoom
    flag is cleared exactly when the index is 0.  Viewport, route, routing
    mode flag and route zoom flag stay as they are. *)
Theorem setMarker_stores_the_marker (d : SetMarkerData) (src : string)
    (geo : Outcome Place) (st : State) :
  let new := with_source (Notions.marker_of d geo) src in
  let st' := handleMarkers {| markers_event := setMarker (Some d);
                              markers_source := src |} geo st in
  source new = Some src
  ∧ valid_marker (Some new) = true
  ∧ (is_Some (get (markers st) (idx d)) ∧ force d = false →
     markers st' = Obj new :: spread (markers st)
     ∧ isPointZoomed st' = isPointZoomed st)
  ∧ (get (markers st) (idx d) = None ∨ force d = true →
     get (markers st') (idx d) = Some new
     ∧ (∀ j, j ≠ idx d → get (markers st') j = get (markers st) j)
     ∧ List.length (markers st') = Nat.max (List.length (markers st)) (S (idx d))
     ∧ isPointZoomed st' = (if decide (idx d = 0) then false else isPointZoomed st))
  ∧ viewport st' = viewport st
  ∧ route st' = route st
  ∧ isRouting st' = isRouting st
  ∧ isRouteZoomedRef st' = isRouteZoomedRef st.
Proof.
  cbn zeta. destruct (with_source_valid (Notions.marker_of d geo) src) as [S V].
  split; [exact S|]. split; [exact V|].
  assert (is_Some (get (markers st) (idx d)) ∧ force d = false
          ∨ (get (markers st) (idx d) = None ∨ force d = true)) as Cases.
  { destruct (get (markers st) (idx d)), (force d); eauto. }
  split; [|split].
  - intros [O F]. by rewrite (setMarker_shifts d src geo st O F).
  - intros P. rewrite (setMarker_puts d src geo st P). cbn.
    rewrite get_set, decide_True by done. split; [done|]. split; [|split].
    + intros j N. by rewrite get_set, decide_False, get_spread.
    + by rewrite length_set, length_spread.
    + by destruct (decide (idx d = 0)) as [->|N];
        [rewrite bool_decide_true | rewrite bool_decide_false].
  - destruct Cases as [[O F] | P].
    + by rewrite (setMarker_shifts d src geo st O F).
    + rewrite (setMarker_puts d src geo st P). by destruct (bool_decide _).
Qed.

(** ** A suggestion chosen *)

(** X5: clicking a place of the suggestion list while the focused index is
    [i] dispatches a setMarker that [handleMarkers] can take; it is one of
    the capsules of [Spec.sample_dispatch] when [i] is 0 or 1.  With two
    markers, or outside routing mode with at most one, the place (with the
    source "routingMenu") replaces what index [i] held and every other
    index reads what it read before.  In routing mode with one marker the
    marker is kept: chosen for input 0 the place goes in front of it, chosen
    for input 1 it goes behind it. *)
Theorem chosen_place_becomes_marker (p : Place) (i : nat) (ist : Inputs.State)
    (st : State) (geo : Outcome Place) :
  Inputs.focusedInputIdx ist = Z.of_nat i →
  ∃ capsule,
    RoutingInputs.as_capsule
      (RoutingInputs.handleResultClick (Inputs.Found p) (isRouting st) (markers st) ist).2
    = Some capsule
    ∧ (i ≤ 1 → Spec.sample_dispatch st capsule)
    ∧ (List.length (markers st) = 2
       ∨ isRouting st = false ∧ List.length (markers st) ≤ 1 →
       get (markers (handleMarkers capsule geo st)) i
       = Some (with_source (Some p) "routingMenu")
       ∧ ∀ j, j ≠ i →
           get (markers (handleMarkers capsule geo st)) j = get (markers st) j)
    ∧ (isRouting st = true → ∀ m, markers st = [Obj m] →
       (i = 0 → markers (handleMarkers capsule geo st)
                = [Obj (with_source (Some p) "routingMenu"); Obj m])
       ∧ (i = 1 → markers (handleMarkers capsule geo st)
                  = [Obj m; Obj (with_source (Some p) "routingMenu")])).
Proof.
  intros Focus. unfold RoutingInputs.as_capsule, RoutingInputs.handleResultClick.
  cbn. rewrite Focus, decide_True, Nat2Z.id by lia.
  eexists. split; [reflexivity|]. split; [|split].
  - intros I d [= <-]. cbn. split; [done|]. intros L. rewrite L.
    by destruct (isRouting st).
  - intros Forced.
    assert (default false
              (if negb (isRouting st) && bool_decide (List.length (markers st) = 0)
               then Some true
               else if negb (isRouting st) && bool_decide (List.length (markers st) = 1)
                    then Some true
                    else if bool_decide (List.length (markers st) = 2)
                         then Some true else None) = true) as F.
    { destruct Forced as [L | [R L]].
      - rewrite L. by destruct (isRouting st).
      - rewrite R. destruct (markers st) as [|a [|b rest]]; cbn in *; [done..|lia]. }
    rewrite setMarker_puts by (right; exact F). cbn.
    rewrite get_set, decide_True by done. split; [done|].
    intros j N. by rewrite get_set, decide_False, get_spread.
  - intros R m M. unfold App.handleMarkers. cbn. rewrite R, !M. cbn.
    split; intros ->; reflexivity.
Qed.

(** ** At most two markers *)

Lemma handleRouting_frame (message : option RoutingCapsule) (st : State) :
  handleRouting message st = resetView st
  ∨ (markers (handleRouting message st) = markers st
     ∧ route (handleRouting message st) = route st
     ∧ viewport (handleRouting message st) = viewport st
     ∧ isRouteZoomedRef (handleRouting message st) = isRouteZoomedRef st
     ∧ isPointZoomed (handleRouting message st) = isPointZoomed st).
Proof.
  destruct message as [[ev src]|]; [|by right].
  destruct ev; try (by left); try (by right);
    unfold App.handleRouting; split_handler; by right.
Qed.

Lemma step_at_most_two (st : State) (ev : Event) :
  List.length (AppContext.markers defaultState) ≤ 2 →
  List.length (markers st) ≤ 2 →
  Notions.sample_event st ev →
  List.length (markers (step st ev).1) ≤ 2.
Proof.
  intros D L S.
  destruct ev as [m|d g|e|e g|v|dv|dv|answer]; cbn [App.step fst].
  - by destruct (handleRouting_frame m st) as [-> | [-> _]].
  - by apply handleMarkers_at_most_two.
  - by destruct e.
  - by apply mapClick_at_most_two.
  - done.
  - destruct (App.routeZoomEffect fitBounds dv st) as [st' flown] eqn:E.
    cbn. replace st' with (App.routeZoomEffect fitBounds dv st).1 by (by rewrite E).
    unfold App.routeZoomEffect. destruct (route st); [|done].
    destruct (negb (isRouteZoomedRef st)); [|done].
    unfold zoomToRoute. destruct (RouteBBox _) as [[[b0 b1] b2] b3].
    by destruct (fitBounds _ _ _) as [[[lng lat] z]|].
  - unfold pointZoomEffect. split_handler; try done.
    all: unfold zoomToPoint; by destruct (point _).
  - by destruct answer.
Qed.

(** X6: if the default state holds at most two markers, the application
    never holds more than two, as long as the setMarker capsules it
    receives are those the sample dispatches (index 0 or 1, forced when two
    markers are held): map clicks, suggestion clicks, swaps, resets, Routing
    and Viewport capsules, effects and route answers all keep the bound. *)
Theorem sample_events_keep_two_markers (st : State) (evs : list Event) :
  List.length (AppContext.markers defaultState) ≤ 2 →
  List.length (markers st) ≤ 2 →
  sample_events st evs →
  List.length (markers (run st evs).1) ≤ 2.
Proof.
  intros D. revert st. induction evs as [|ev evs IH]; intros st L S; [done|].
  destruct S as [S Rest]. cbn [App.run].
  pose proof (step_at_most_two st ev D L S) as L1.
  destruct (step st ev) as [st1 flown]. cbn [fst] in *.
  specialize (IH st1 L1 Rest).
  by destruct (run st1 evs) as [st2 flown'].
Qed.

(** ** The point zoom effect *)

(** X7: the point zoom effect acts only when exactly one marker is held
    and the flag is unset.  It then flies to the point of that marker at
    zoom 15, keeping the size of the debounced viewport, and throws when
    the slot is undefined or the marker has no geometry; either way the
    flag is set, so that a second run does nothing.  Markers, route,
    routing mode and the route zoom flag are never touched. *)
Theorem pointZoomEffect_once (dv dv' : Viewport) (st : State) :
  let st' := (pointZoomEffect dv st).1 in
  let outcome := (pointZoomEffect dv st).2 in
  (outcome ≠ NoPointZoom ↔ List.length (markers st) = 1 ∧ isPointZoomed st = false)
  ∧ (outcome = NoPointZoom → st' = st)
  ∧ (outcome ≠ NoPointZoom → isPointZoomed st' = true)
  ∧ (∀ p, outcome = PointZoomed p
          ↔ List.length (markers st) = 1 ∧ isPointZoomed st = false
            ∧ ∃ m g, get (markers st) 0 = Some m ∧ geometry m = Some g ∧ p = point g)
  ∧ (∀ p, outcome = PointZoomed p → viewport st' = App.flyTo dv p.1 p.2 (15 # 1)%Q)
  ∧ (outcome = PointZoomTypeError → viewport st' = viewport st)
  ∧ pointZoomEffect dv' st' = (st', NoPointZoom)
  ∧ markers st' = markers st ∧ route st' = route st
  ∧ isRouting st' = isRouting st ∧ isRouteZoomedRef st' = isRouteZoomedRef st.
Proof.
  cbn zeta. unfold pointZoomEffect.
  destruct (bool_decide_reflect (List.length (markers st) = 1)) as [L|L];
    destruct (isPointZoomed st) eqn:Z; cbn [andb negb fst snd].
  - split_and!; try done.
    + split; [intros N; by destruct N | by intros [_ [=]]].
    + intros p. split; [done | by intros (_ & [=] & _)].
    + rewrite Z. cbn. by rewrite andb_false_r.
  - cbn. destruct (get (markers st) 0) as [m|] eqn:M; cbn;
      [destruct (geometry m) as [g|] eqn:G; cbn|].
    + unfold zoomToPoint. destruct (point g) as [lng lat] eqn:P. cbn.
      rewrite bool_decide_true by done. cbn. split_and!; try done.
      * intros p. split.
        -- intros [= <-]. split_and!; try done. exists m, g. by rewrite P.
        -- intros (_ & _ & m' & g' & [= <-] & G' & ->). rewrite G in G'.
           injection G' as <-. by rewrite P.
      * by intros p [= <-].
    + rewrite bool_decide_true by done. cbn. split_and!; try done.
      intros p. split; [done|].
      intros (_ & _ & m' & g' & [= <-] & G' & _). by rewrite G in G'.
    + rewrite bool_decide_true by done. cbn. split_and!; try done.
      intros p. split; [done|]. by intros (_ & _ & m' & g' & [=] & _).
  - split_and!; try done.
    + split; [intros N; by destruct N | by intros [? _]].
    + intros p. split; [done | by intros (? & _)].
    + by rewrite bool_decide_false.
  - split_and!; try done.
    + split; [intros N; by destruct N | by intros [? _]].
    + intros p. split; [done | by intros (? & _)].
    + by rewrite bool_decide_false.
Qed.

Lemma handleMapClick_empty (e : LngLat) (st : State) :
  markers st = [] →
  handleMapClick e st
  = {| markers_event :=
         setMarker (Some {| idx := 0; lngLat := Some e; marker := None;
                            geocode := true; force := true |});
       markers_source := "map" |}.
Proof.
  intros M. unfold handleMapClick. rewrite M. cbn [List.length].
  rewrite (bool_decide_false (0 < 0)) by lia. cbn [andb].
  by rewrite (bool_decide_true (0 = 0)).
Qed.

(** X8: on a map without markers a click whose reverse geocoding resolves
    with a located place leaves that place as the one marker, with the
    source "map", and the next run of the point zoom effect flies to its
    point at zoom 15, whatever the point zoom flag was before the click. *)
Theorem click_on_empty_map_zooms_to_place (e : LngLat) (p : Place) (g : Geometry)
    (dv : Viewport) (st : State) :
  markers st = [] → geometry p = Some g →
  let st1 := (step st (MapClick e (Resolved p))).1 in
  let st2 := (step st1 (RunPointZoomEffect dv)).1 in
  markers st1 = [Obj (with_source (Some p) "map")]
  ∧ (pointZoomEffect dv st1).2 = PointZoomed (point g)
  ∧ longitude (viewport st2) = (point g).1
  ∧ latitude (viewport st2) = (point g).2
  ∧ zoom (viewport st2) = (15 # 1)%Q
  ∧ transitionInterpolator (viewport st2) = Some (8 # 10)%Q
  ∧ transitionDuration (viewport st2) = Some auto
  ∧ markers st2 = markers st1.
Proof.
  intros M G. cbn [App.step fst]. rewrite (handleMapClick_empty e st M).
  rewrite setMarker_puts by (by right). rewrite M. cbn.
  assert (∀ v : Slot Place, set 0 v [] = [v]) as First by reflexivity.
  rewrite First, (bool_decide_true (0 = 0)) by done.
  unfold pointZoomEffect. cbn. rewrite (bool_decide_true (1 = 1)) by done.
  cbn. rewrite G. cbn. unfold zoomToPoint. by destruct (point g).
Qed.

(** ** The route zoom effect *)

(** X9: when a route result arrives, the next run of the route zoom effect
    sets the zoom flag and leaves the response, less its metadata, as the
    route, in every state.  Where [fitBounds] answers for the debounced
    viewport and the box of the route, with paddings of 50, and 450 on the
    right when the viewport is wider than 768, the viewport flies to that
    answer.  Where [fitBounds] throws, as it does on a viewport without a
    size, the viewport stays as it was and, the flag being set already, no
    later run of the effect flies to this route until another route result
    arrives.  A rejected answer leads to no flight it would not have led to
    before. *)
Theorem route_result_flies_or_is_lost (res : RouteResult) (dv : Viewport)
    (st : State) (evs : list Event) :
  let box := RouteBBox (Summary res) in
  let asked :=
    fitBounds dv ((box.1.1.1, box.1.1.2), (box.1.2, box.2))
      {| top := (50 # 1)%Q; bottom := (50 # 1)%Q; left := (50 # 1)%Q;
         right := match width dv with
                  | Some w => if Qle_bool w (768 # 1) then (50 # 1)%Q else (450 # 1)%Q
                  | None => (50 # 1)%Q
                  end |} in
  let after := run st [RouteSettled (Resolved res); RunRouteZoomEffect dv] in
  isRouteZoomedRef after.1 = true
  ∧ route after.1 = Some (delete_metadata res)
  ∧ (∀ lng lat z, asked = Some (lng, lat, z) →
       after.2 = [box] ∧ viewport after.1 = App.flyTo dv lng lat z)
  ∧ (asked = None →
       after.2 = [] ∧ viewport after.1 = viewport st
       ∧ (Spec.route_results evs = 0 → (run after.1 evs).2 = []))
  ∧ run st [RouteSettled Rejected; RunRouteZoomEffect dv] = run st [RunRouteZoomEffect dv].
Proof.
  cbn zeta.
  assert (isRouteZoomedRef
            (run st [RouteSettled (Resolved res); RunRouteZoomEffect dv]).1 = true
          ∧ route (run st [RouteSettled (Resolved res); RunRouteZoomEffect dv]).1
            = Some (delete_metadata res)) as [Z R].
  { cbn. unfold zoomToRoute, right_padding.
    destruct (RouteBBox (Summary res)) as [[[b0 b1] b2] b3].
    by destruct (fitBounds _ _ _) as [[[lng lat] z]|]. }
  split; [exact Z|]. split; [exact R|]. split; [|split].
  - intros lng lat z. cbn. unfold zoomToRoute, right_padding.
    destruct (RouteBBox (Summary res)) as [[[b0 b1] b2] b3]. cbn.
    by intros ->.
  - intros N. split; [|split].
    + revert N. cbn. unfold zoomToRoute, right_padding.
      destruct (RouteBBox (Summary res)) as [[[b0 b1] b2] b3]. cbn.
      by intros ->.
    + revert N. cbn. unfold zoomToRoute, right_padding.
      destruct (RouteBBox (Summary res)) as [[[b0 b1] b2] b3]. cbn.
      by intros ->.
    + intros E.
      pose proof (run_budget defaultState CAR TRUCK UnitsEnum fitBounds evs
                    (run st [RouteSettled (Resolved res); RunRouteZoomEffect dv]).1)
        as B.
      unfold Spec.awaiting_zoom in B. rewrite Z, R, E in B.
      destruct (run _ evs).2; [done | cbn in B; lia].
  - cbn. by destruct (App.routeZoomEffect fitBounds dv st).
Qed.

(** ** Routing capsules *)


(** ** changeUnits *)

(** X11: a changeUnits to other units whose entry [UnitsEnum] has, on truck
    options whose [Weight] and [Dimensions] are objects, sets [units] to the
    data, [distanceUnit] to the distance unit of the entry and the [Unit] of
    [Weight] and of [Dimensions] to its weight and dimension units, every
    other key of the two nested objects and of [truckOptions] being kept,
    and [carOptions], markers and route too. *)
Theorem changeUnits_sets_all_units (data src : string) (entry : AppContext.UnitsEntry)
    (w dm : gmap string AppContext.jsval) (st : State) :
  data ≠ units st →
  UnitsEnum data = Some entry →
  truckOptions st !! "Weight" = Some (AppContext.JObj w) →
  truckOptions st !! "Dimensions" = Some (AppContext.JObj dm) →
  let st' := handleRouting (Some {| routing_event := changeUnits data;
                                    routing_source := src |}) st in
  units st' = data
  ∧ distanceUnit st' = AppContext.distance entry
  ∧ truckOptions st' !! "Weight"
    = Some (AppContext.JObj
              (<["Unit" := AppContext.JStr (AppContext.weight entry)]> w))
  ∧ truckOptions st' !! "Dimensions"
    = Some (AppContext.JObj
              (<["Unit" := AppContext.JStr (AppContext.dimensions entry)]> dm))
  ∧ (∀ k, k ≠ "Weight" → k ≠ "Dimensions" →
          truckOptions st' !! k = truckOptions st !! k)
  ∧ carOptions st' = carOptions st
  ∧ markers st' = markers st
  ∧ route st' = route st.
Proof.
  intros N E W D. cbn zeta. unfold App.handleRouting, assign_nested. cbn.
  rewrite bool_decide_true, E by done. cbn. rewrite W.
  rewrite lookup_insert_ne, D by done. cbn.
  split; [done|]. split; [done|]. split; [|split; [|split]].
  - by rewrite lookup_insert_ne, lookup_insert_eq.
  - by rewrite lookup_insert_eq.
  - intros k N1 N2. by rewrite !lookup_insert_ne.
  - done.
Qed.

(** X12: the edges of changeUnits.  The units already in use change
    nothing, and neither do units [UnitsEnum] does not have.  When
    [truckOptions] has no [Weight] object the handler stops after the
    distance unit: [distanceUnit] is changed, [units] and [truckOptions] are
    not.  When only [Dimensions] is no object it stops after the weight
    unit too, [units] being left as it was. *)
Theorem changeUnits_stops_half_way (data src : string) (entry : AppContext.UnitsEntry)
    (w : gmap string AppContext.jsval) (st : State) :
  let st' := handleRouting (Some {| routing_event := changeUnits data;
                                    routing_source := src |}) st in
  (data = units st → st' = st)
  ∧ (UnitsEnum data = None → st' = st)
  ∧ (data ≠ units st → UnitsEnum data = Some entry →
     (∀ o, truckOptions st !! "Weight" ≠ Some (AppContext.JObj o)) →
     st' = setDistanceUnit (AppContext.distance entry) st)
  ∧ (data ≠ units st → UnitsEnum data = Some entry →
     truckOptions st !! "Weight" = Some (AppContext.JObj w) →
     (∀ o, truckOptions st !! "Dimensions" ≠ Some (AppContext.JObj o)) →
     units st' = units st
     ∧ distanceUnit st' = AppContext.distance entry
     ∧ truckOptions st' !! "Weight"
       = Some (AppContext.JObj
                 (<["Unit" := AppContext.JStr (AppContext.weight entry)]> w))).
Proof.
  cbn zeta. unfold App.handleRouting, assign_nested. cbn. split_and!.
  - intros ->. by rewrite bool_decide_false by (by intros N).
  - intros ->. by case_bool_decide.
  - intros N E W. rewrite bool_decide_true, E by done. cbn.
    destruct (truckOptions st !! "Weight") as [[| | | |o]|] eqn:T; try done.
    by destruct (W o).
  - intros N E W D. rewrite bool_decide_true, E by done. cbn. rewrite W.
    rewrite lookup_insert_ne by done.
    destruct (truckOptions st !! "Dimensions") as [[| | | |o]|] eqn:T; cbn;
      try (split; [done|]; split; [done|]; by rewrite lookup_insert_eq).
    by destruct (D o).
Qed.

(** ** The route held *)

Lemma step_keeps_route_or_sets_it (st : State) (ev : Event) :
  route (step st ev).1 = route st
  ∨ route (step st ev).1 = None
  ∨ ∃ res, route (step st ev).1 = Some (delete_metadata res).
Proof.
  destruct ev as [m|d g|e|e g|v|dv|dv|[res|]]; cbn [App.step fst].
  - destruct (handleRouting_route_zoom defaultState CAR TRUCK UnitsEnum m st)
      as [[-> _] | ->]; [by left | by right; left].
  - destruct (handleMarkers_route_zoom defaultState d g st)
      as [[-> _] | ->]; [by left | by right; left].
  - left. by destruct e.
  - destruct (handleMarkers_route_zoom defaultState (handleMapClick e st) g st)
      as [[-> _] | ->]; [by left | by right; left].
  - by left.
  - left. destruct (App.routeZoomEffect fitBounds dv st) as [st' [box|]] eqn:E.
    + destruct (routeZoomEffect_sets_flag fitBounds dv st box) as (_ & _ & R & _).
      { by rewrite E. }
      by rewrite E in R.
    + cbn. revert E. unfold App.routeZoomEffect.
      destruct (route st) as [r|] eqn:R; [|by intros [= <-]].
      destruct (negb (isRouteZoomedRef st)); [|by intros [= <-]].
      destruct (zoomToRoute _ _ _ _); [done|]. by intros [= <-].
  - left. apply pointZoomEffect_route_zoom.
  - right. right. by exists res.
  - by left.
Qed.

(** X13: the route state never holds [$metadata]: it is the default route
    or a response from which the key was deleted, in every state reached
    from the first render, and in every state reached from one where this
    holds. *)
Theorem route_never_holds_metadata (st : State) (evs : list Event) :
  Notions.route_without_metadata (run initial evs).1
  ∧ (Notions.route_without_metadata st → Notions.route_without_metadata (run st evs).1).
Proof.
  assert (∀ evs st, Notions.route_without_metadata st →
                    Notions.route_without_metadata (run st evs).1) as Kept.
  { clear. induction evs as [|ev evs IH]; intros st W; [done|].
    cbn [App.run]. pose proof (step_keeps_route_or_sets_it st ev) as K.
    destruct (step st ev) as [st1 flown]. cbn [fst] in K.
    assert (Notions.route_without_metadata st1) as W1.
    { unfold Notions.route_without_metadata in *.
      destruct K as [-> | [-> | [res ->]]]; done. }
    specialize (IH st1 W1). by destruct (run st1 evs). }
  split; [by apply Kept | apply Kept].
Qed.

End MoreProperties.

(** ** The suggestion list *)

(** X14: when a search resolves with no result the suggestion list has one
    row and its text is empty: the entry is the string "No result found for
    this address.", from which [formatAddress] reads no label and no field.
    When places are found the rows are their formatted addresses, in the
    order returned. *)
Theorem no_result_row_is_blank (value : string) (bias : LngLat) (res : list Place)
    (ist : Inputs.State) :
  trim value ≠ "" →
  RoutingInputs.rows (Inputs.searchByText value bias (Resolved []) ist) = [""]
  ∧ (res ≠ [] →
     RoutingInputs.rows (Inputs.searchByText value bias (Resolved res) ist)
     = Inputs.formatAddress <$> res).
Proof.
  intros N. rewrite !(searchByText_resolved _ _ _ _ N). split; [reflexivity|].
  intros R. destruct res as [|p res]; [done|]. unfold RoutingInputs.rows. cbn.
  f_equal. rewrite <- list_fmap_compose. by apply list_fmap_ext.
Qed.


Lemma step_suggestions_have_focus (ist : Inputs.State) (ev : RoutingInputs.Event) :
  Notions.suggestions_have_focus ist →
  Notions.suggestions_have_focus (RoutingInputs.step ist ev).
Proof.
  unfold Notions.suggestions_have_focus. intros [Shown Focus].
  destruct ev as [value bias idx answer | result isRouting markers | key dv value];
    cbn [RoutingInputs.step].
  - unfold Inputs.handleValueChange, Inputs.searchByText.
    destruct (Inputs.searchByText_call value bias) as [call|];
      [destruct answer as [res|]; [destruct res as [|p res]|]|];
      destruct (Inputs.isDirtyRef _) eqn:Dirty; cbn in *;
      (split; [first [ done | split; [done | by intros _] ] | lia]).
  - cbn. split; [split; [done | by intros N] | by intros N].
  - unfold RoutingInputs.handleExitInput. case_bool_decide; [done|].
    cbn. split; [split; [done | by intros N] | by intros N].
Qed.

(** X16: whatever the inputs report, whichever suggestions are clicked and
    whichever keys are released, from the first render on the suggestion
    list is shown exactly when it is not empty, and then the focused index
    is no longer the initial -1: a click on a suggestion always dispatches
    an index that is not negative. *)
Theorem suggestions_shown_have_a_focused_input (evs : list RoutingInputs.Event)
    (result : Inputs.Suggestion) (isRouting : bool) (markers : list (Slot Place)) :
  let ist := RoutingInputs.run Inputs.initial evs in
  (Inputs.hasSuggestions ist = true ↔ Inputs.suggestions ist ≠ [])
  ∧ (Inputs.suggestions ist ≠ [] →
     (0 ≤ RoutingInputs.idx
            (RoutingInputs.handleResultClick result isRouting markers ist).2.1)%Z).
Proof.
  cbn zeta.
  assert (∀ evs ist, Notions.suggestions_have_focus ist →
                     Notions.suggestions_have_focus (RoutingInputs.run ist evs)) as Kept.
  { clear. induction evs as [|ev evs IH]; intros ist I; [done|].
    cbn. apply IH. by apply step_suggestions_have_focus. }
  destruct (Kept evs Inputs.initial) as [Shown Focus].
  { split; [split; [done | by intros N] | by intros N]. }
  split; [exact Shown | exact Focus].
Qed.

(** X17: computing the default values of the inputs throws exactly when an
    input has been used or routing mode is on, and one of the inputs is
    undefined; in particular it never throws before the first use outside
    routing mode, and never when every marker slot holds an object. *)
Theorem default_values_of_inputs (isDirty isRouting : bool)
    (markers : list (Slot Place)) :
  (RoutingInputs.defaultValues isDirty isRouting markers = None
   ↔ isDirty || isRouting = true
     ∧ Undefined ∈ RoutingInputs.inputs isRouting markers)
  ∧ (Forall Notions.holds_object markers →
     is_Some (RoutingInputs.defaultValues isDirty isRouting markers)).
Proof.
  assert (RoutingInputs.defaultValues isDirty isRouting markers = None
          ↔ isDirty || isRouting = true
            ∧ Undefined ∈ RoutingInputs.inputs isRouting markers) as Throws.
  { unfold RoutingInputs.defaultValues.
    destruct (inputs_never_empty_nor_sparse isRouting markers) as (_ & Dn & _).
    cbn zeta in Dn. revert Dn.
    generalize (RoutingInputs.inputs isRouting markers) as shown.
    unfold RoutingInputs.input_marker, RoutingInputs.defaultValue.
    induction shown as [|s shown IH]; intros Dn.
    - cbn. split; [done|]. intros [_ I]. by apply elem_of_nil in I.
    - apply Forall_cons in Dn as [Ns Dn]. specialize (IH Dn).
      cbn [mapM]. destruct (isDirty || isRouting) eqn:Used.
      + destruct s as [| |m]; [done| |]; cbn.
        * split; [|done]. intros _. split; [done|]. apply elem_of_cons. by left.
        * destruct (mapM _ shown) as [values|] eqn:Rest; cbn.
          -- split; [done|]. intros [_ I]. apply elem_of_cons in I as [[=]|I].
             discriminate (proj2 IH (conj eq_refl I)).
          -- split; [|done]. intros _. split; [done|].
             apply elem_of_cons. right. by destruct (proj1 IH eq_refl).
      + cbn. destruct (mapM _ shown) as [values|] eqn:Rest; cbn.
        * split; [done|]. by intros [[=] _].
        * destruct (proj1 IH eq_refl) as [[=] _]. }
  split; [exact Throws|].
  intros Objects.
  destruct (RoutingInputs.defaultValues isDirty isRouting markers) eqn:E; [by eexists|].
  destruct (proj1 Throws eq_refl) as [_ I]. exfalso. revert I.
  unfold RoutingInputs.inputs.
  assert (Undefined ∉ spread markers) as NotIn.
  { unfold spread. intros I. apply list_elem_of_fmap in I as (s & Es & I).
    rewrite Forall_forall in Objects. destruct (Objects s I) as [m ->]. done. }
  destruct (negb _ && negb isRouting) eqn:First.
  - destruct markers as [|s rest].
    + cbn. intros I. apply elem_of_cons in I as [[=]|I]. by apply elem_of_nil in I.
    + apply Forall_cons in Objects as [[m ->] _].
      unfold spread, get in First. cbn [fmap list_fmap lookup list_lookup] in First.
      rewrite bool_decide_true in First by (by eexists). done.
  - destruct (isRouting && _).
    + rewrite spread_spread. intros I. by apply elem_of_cons in I as [[=]|I].
    + done.
Qed.

(** X18: swapMarkers leaves no marker at all when the state holds none or
    more than two; the swap button is rendered only with one marker (in
    routing mode) or two, where the swap keeps as many markers as there are
    inputs. *)
Theorem swapMarkers_outside_one_and_two (defaultState : AppContext.DefaultState)
    (src : string) (geo : Outcome Place) (st : State) :
  let swap := App.handleMarkers defaultState
                {| markers_event := swapMarkers; markers_source := src |} geo in
  (List.length (markers st) ≠ 1 → List.length (markers st) ≠ 2 →
   markers (swap st) = [])
  ∧ (RoutingInputs.showSwap (isRouting st) (markers st) = true →
     (List.length (markers st) = 1 ∧ isRouting st = true
      ∨ List.length (markers st) = 2)
     ∧ List.length (markers (swap st)) = 2).
Proof.
  cbn zeta. cbn. unfold swapped. split.
  - intros N1 N2. by rewrite !bool_decide_false.
  - unfold RoutingInputs.showSwap. intros Shown. apply bool_decide_eq_true in Shown.
    destruct (inputs_never_empty_nor_sparse (isRouting st) (markers st))
      as (_ & _ & Len & _).
    cbn zeta in Len. rewrite Shown in Len.
    destruct (markers st) as [|a [|b [|c rest]]]; cbn [List.length] in *.
    + by rewrite decide_True in Len.
    + rewrite decide_False, (bool_decide_true (1 = 1)) in Len by done.
      destruct (isRouting st); [|done]. split; [by left | done].
    + split; [by right | done].
    + rewrite decide_False, bool_decide_false, andb_false_r in Len by lia. lia.
Qed.

(** ** The further properties on the sample application *)

Lemma swap_button_reverses_inputs_witness :
  RoutingInputs.showSwap (isRouting Sample.routingOne) (markers Sample.routingOne) = true
  ∧ Forall Notions.holds_object (markers Sample.routingOne)
  ∧ RoutingInputs.inputs true (markers Sample.routingOne)
    = [Obj emptyObject; Obj (with_source (Some Sample.bellagio) "map")]
  ∧ RoutingInputs.inputs true
      (markers (Sample.handleMarkers Sample.swapCapsule Rejected Sample.routingOne))
    = [Obj (with_source (Some Sample.bellagio) "map"); Obj emptyObject].
Proof.
  assert (Forall Notions.holds_object (markers Sample.routingOne)) as Objects
    by (repeat constructor; by eexists).
  split; [reflexivity|]. split; [exact Objects|]. split; [reflexivity|].
  exact (swap_button_reverses_inputs Sample.defaultState "" Rejected Sample.routingOne
           eq_refl Objects).
Defined.

Lemma chosen_place_becomes_marker_witness :
  Inputs.focusedInputIdx Cases.searched = 1%Z
  ∧ ∃ capsule,
      RoutingInputs.as_capsule
        (RoutingInputs.handleResultClick (Inputs.Found Sample.unlabelled)
           (isRouting Sample.routingOne) (markers Sample.routingOne)
           Cases.searched).2
      = Some capsule
      ∧ Spec.sample_dispatch Sample.routingOne capsule
      ∧ markers (Sample.handleMarkers capsule Rejected Sample.routingOne)
        = [Obj (with_source (Some Sample.bellagio) "map");
           Obj (with_source (Some Sample.unlabelled) "routingMenu")].
Proof.
  split; [reflexivity|].
  destruct (chosen_place_becomes_marker Sample.defaultState Sample.unlabelled 1
              Cases.searched Sample.routingOne Rejected eq_refl)
    as (capsule & E & Dispatch & _ & Kept).
  exists capsule. split; [exact E|]. split; [apply Dispatch; lia|].
  exact (proj2 (Kept eq_refl _ eq_refl) eq_refl).
Defined.

Lemma sample_events_keep_two_markers_witness :
  let evs := [HubRouting (Some Sample.startRoutingCapsule);
              MapClick Sample.strip (Resolved Sample.bellagio);
              HubMarkers Sample.secondInputCapsule Rejected;
              MapClick Sample.strip (Resolved Sample.unlabelled);
              HubMarkers Sample.swapCapsule Rejected] in
  List.length (AppContext.markers Sample.defaultState) ≤ 2
  ∧ List.length (markers Sample.mounted) ≤ 2
  ∧ Notions.sample_events Sample.defaultState "Car" "Truck" Sample.UnitsEnum
      Sample.fitBounds Sample.mounted evs
  ∧ List.length (markers (Sample.run Sample.mounted evs).1) ≤ 2.
Proof.
  cbn zeta.
  assert (List.length (AppContext.markers Sample.defaultState) ≤ 2) as D
    by (vm_compute; lia).
  assert (List.length (markers Sample.mounted) ≤ 2) as L by (vm_compute; lia).
  assert (Notions.sample_events Sample.defaultState "Car" "Truck" Sample.UnitsEnum
            Sample.fitBounds Sample.mounted
            [HubRouting (Some Sample.startRoutingCapsule);
             MapClick Sample.strip (Resolved Sample.bellagio);
             HubMarkers Sample.secondInputCapsule Rejected;
             MapClick Sample.strip (Resolved Sample.unlabelled);
             HubMarkers Sample.swapCapsule Rejected]) as S.
  { cbn. split_and!; try done.
    intros d [= <-]. cbn. split; [lia | done]. }
  split; [exact D|]. split; [exact L|]. split; [exact S|].
  exact (sample_events_keep_two_markers Sample.defaultState "Car" "Truck"
           Sample.UnitsEnum Sample.fitBounds Sample.mounted _ D L S).
Defined.

Lemma click_on_empty_map_zooms_to_place_witness :
  markers Sample.mounted = []
  ∧ geometry Sample.bellagio
    = Some {| point := ((-1151767 # 10000)%Q, (361126 # 10000)%Q) |}
  ∧ (pointZoomEffect (viewport Sample.mounted)
       (Sample.step Sample.mounted (MapClick Sample.strip (Resolved Sample.bellagio))).1).2
    = PointZoomed ((-1151767 # 10000)%Q, (361126 # 10000)%Q).
Proof.
  split; [reflexivity|]. split; [reflexivity|].
  exact (proj1 (proj2 (click_on_empty_map_zooms_to_place Sample.defaultState
                         "Car" "Truck" Sample.UnitsEnum Sample.fitBounds
                         Sample.strip Sample.bellagio _ (viewport Sample.mounted)
                         Sample.mounted eq_refl eq_refl))).
Defined.

Lemma changeUnits_sets_all_units_witness :
  let st' := Sample.handleRouting (Some (Cases.changeUnitsCapsule "imperial"))
               Sample.mounted in
  units Sample.mounted = "metric"
  ∧ units st' = "imperial"
  ∧ distanceUnit st' = "Miles"
  ∧ truckOptions st' !! "AvoidTolls" = Some (AppContext.JBool false)
  ∧ carOptions st' = carOptions Sample.mounted.
Proof.
  cbn zeta.
  destruct (changeUnits_sets_all_units Sample.defaultState "Car" "Truck"
              Sample.UnitsEnum "imperial" ""
              {| AppContext.distance := "Miles"; AppContext.weight := "Pounds";
                 AppContext.dimensions := "Feet" |}
              (<["Total" := AppContext.JNum (0 # 1)%Q]>
                 (<["Unit" := AppContext.JStr "Kilograms"]> ∅))
              (<["Height" := AppContext.JNum (0 # 1)%Q]>
                 (<["Length" := AppContext.JNum (0 # 1)%Q]>
                    (<["Width" := AppContext.JNum (0 # 1)%Q]>
                       (<["Unit" := AppContext.JStr "Meters"]> ∅))))
              Sample.mounted)
    as (U & Di & _ & _ & Other & Car & _);
    [by vm_compute | reflexivity | reflexivity | reflexivity |].
  split; [reflexivity|]. split; [exact U|]. split; [exact Di|].
  split; [|exact Car].
  etrans; [apply (Other "AvoidTolls"); done | reflexivity].
Defined.

Lemma changeUnits_stops_half_way_witness :
  let st' := Sample.handleRouting (Some (Cases.changeUnitsCapsule "imperial"))
               Cases.noWeight in
  truckOptions Cases.noWeight !! "Weight" = None
  ∧ st' = setDistanceUnit "Miles" Cases.noWeight
  ∧ distanceUnit st' = "Miles"
  ∧ units st' = "metric".
Proof.
  cbn zeta.
  destruct (changeUnits_stops_half_way Sample.defaultState "Car" "Truck"
              Sample.UnitsEnum "imperial" ""
              {| AppContext.distance := "Miles"; AppContext.weight := "Pounds";
                 AppContext.dimensions := "Feet" |}
              ∅ Cases.noWeight)
    as (_ & _ & Torn & _).
  assert (truckOptions Cases.noWeight !! "Weight" = None) as W by reflexivity.
  split; [exact W|].
  assert (Sample.handleRouting (Some (Cases.changeUnitsCapsule "imperial"))
            Cases.noWeight
          = setDistanceUnit "Miles" Cases.noWeight) as E.
  { apply Torn; [by vm_compute | reflexivity |]. intros o. by rewrite W. }
  rewrite E. by repeat split.
Defined.

Lemma no_result_row_is_blank_witness :
  trim "Atlantis" ≠ ""
  ∧ Inputs.suggestions Cases.nothingFound
    = [Inputs.Message "No result found for this address."]
  ∧ RoutingInputs.rows Cases.nothingFound = [""]
  ∧ RoutingInputs.rows
      (Inputs.searchByText "Atlantis" Sample.strip (Resolved []) Inputs.initial)
    = [""].
Proof.
  assert (trim "Atlantis" ≠ "") as N by (by vm_compute).
  split; [exact N|]. split; [reflexivity|]. split; [reflexivity|].
  exact (proj1 (no_result_row_is_blank "Atlantis" Sample.strip [] Inputs.initial N)).
Defined.

Lemma route_result_flies_or_is_lost_witness :
  let arrives dv := [RouteSettled (Resolved Sample.response); RunRouteZoomEffect dv] in
  let flown := Sample.run Sample.twoMarkers (arrives Sample.desktop) in
  let lost := Sample.run Sample.twoMarkers (arrives (viewport Sample.mounted)) in
  flown.2 = [Sample.bbox]
  ∧ viewport flown.1
    = App.flyTo Sample.desktop Sample.bbox.1.1.1 Sample.bbox.1.1.2 (10 # 1)%Q
  ∧ isRouteZoomedRef flown.1 = true
  ∧ lost.2 = []
  ∧ viewport lost.1 = viewport Sample.twoMarkers
  ∧ isRouteZoomedRef lost.1 = true
  ∧ (Sample.run lost.1 [RunRouteZoomEffect Sample.desktop;
                        ViewportChange Sample.desktop;
                        RunRouteZoomEffect Sample.desktop]).2 = [].
Proof.
  cbn zeta.
  destruct (route_result_flies_or_is_lost Sample.defaultState "Car" "Truck"
              Sample.UnitsEnum Sample.fitBounds Sample.response Sample.desktop
              Sample.twoMarkers [])
    as (Set1 & _ & Flies & _).
  destruct (route_result_flies_or_is_lost Sample.defaultState "Car" "Truck"
              Sample.UnitsEnum Sample.fitBounds Sample.response
              (viewport Sample.mounted) Sample.twoMarkers
              [RunRouteZoomEffect Sample.desktop;
               ViewportChange Sample.desktop;
               RunRouteZoomEffect Sample.desktop])
    as (Set2 & _ & _ & Lost & _).
  destruct (Flies _ _ _ eq_refl) as [Box Flown].
  destruct (Lost eq_refl) as (Nothing & Kept & Never).
  split; [exact Box|]. split; [exact Flown|]. split; [exact Set1|].
  split; [exact Nothing|]. split; [exact Kept|]. split; [exact Set2|].
  exact (Never eq_refl).
Defined.
